(** * ArkWork backend: the chat route ([src/routes/chat.ts])

    A shallow embedding of the request validation, the prompt/history
    assembly and the response mapping of the POST /api/chat handler,
    together with the properties the design document states about them.

    Layout:
    - [Js]    : the JavaScript values the route manipulates (strings as
                sequences of UTF-16 code units, numbers, objects), with the
                built-ins the route calls ([slice], [trim], [||], [?.],
                JSON serialisation);
    - [Zod]   : the schema combinators of the validation library the route
                uses, with issue collection and [format];
    - [Chat]  : the route itself;
    - [Server]: the origin check and the error handler of the application
                that mounts the route;
    - the properties. *)

From Stdlib Require Import List String Ascii Bool Arith ZArith NArith QArith Lia.
From Stdlib Require Import DecimalString.
Import ListNotations.

Close Scope Q_scope.
Local Open Scope nat_scope.
Local Open Scope list_scope.

(* ================================================================== *)
(** * JavaScript values and built-ins *)
(* ================================================================== *)

Module Js.

(** A JavaScript string is a sequence of UTF-16 code units; [length] and
    [slice] count code units. *)
Definition char16 := N.
Definition jsstring := list char16.

(** An ASCII literal of the source as a JavaScript string. *)
Definition js (s : string) : jsstring :=
  map N_of_ascii (list_ascii_of_string s).

Fixpoint str_eqb (a b : jsstring) : bool :=
  match a, b with
  | [], [] => true
  | x :: a', y :: b' => N.eqb x y && str_eqb a' b'
  | _, _ => false
  end.

(** A JavaScript number: a finite value (every finite double is a rational;
    the route only compares numbers with the constants 0, 1, 64 and 2048 and
    tests integrality, which are exact), the two infinities, or NaN. *)
Inductive number :=
| Finite (q : Q)
| PosInfinity
| NegInfinity
| NaN.

Definition Qltb (a b : Q) : bool := negb (Qle_bool b a).

(** [a < b] on JavaScript numbers. *)
Definition num_lt (a b : number) : bool :=
  match a, b with
  | NaN, _ | _, NaN => false
  | Finite x, Finite y => Qltb x y
  | NegInfinity, NegInfinity => false
  | NegInfinity, _ => true
  | PosInfinity, _ => false
  | Finite _, PosInfinity => true
  | Finite _, NegInfinity => false
  end.

(** [Number.isInteger]. *)
Definition isInteger (n : number) : bool :=
  match n with
  | Finite q => (Qnum q mod Zpos (Qden q) =? 0)%Z
  | _ => false
  end.

Definition of_Z (z : Z) : number := Finite (inject_Z z).

#[warnings="-register-all"]
Inductive value :=
| JUndefined
| JNull
| JBool (b : bool)
| JNumber (n : number)
| JString (s : jsstring)
| JArray (items : list value)
| JObject (props : list (jsstring * value)).

(** Own-property read on a property list (keys of an object are distinct;
    the first binding is the property). *)
Fixpoint lookup (k : jsstring) (props : list (jsstring * value)) : value :=
  match props with
  | [] => JUndefined
  | (k', v) :: rest => if str_eqb k k' then v else lookup k rest
  end.

(** [v?.k] for the property names the route reads (none of which exists on
    a primitive or on an array). *)
Definition get (v : value) (k : jsstring) : value :=
  match v with
  | JObject props => lookup k props
  | _ => JUndefined
  end.

(** The own property names of an object. *)
Definition keys (v : value) : list jsstring :=
  match v with
  | JObject props => map fst props
  | _ => []
  end.

(** Truthiness, as [!x], [a || b] and [c ? a : b] use it. *)
Definition truthy (v : value) : bool :=
  match v with
  | JUndefined | JNull => false
  | JBool b => b
  | JNumber (Finite q) => negb (Qnum q =? 0)%Z
  | JNumber NaN => false
  | JNumber _ => true
  | JString s => match s with [] => false | _ => true end
  | JArray _ | JObject _ => true
  end.

(** [a || b] *)
Definition or (a b : value) : value := if truthy a then a else b.

(** [a ?? b] *)
Definition coalesce (a b : value) : value :=
  match a with
  | JUndefined | JNull => b
  | _ => a
  end.

(** [xs.slice(start, end)] on arrays and strings: negative indices count
    from the end, everything is clipped to the length. *)
Definition rel_index (len i : Z) : Z :=
  if (i <? 0)%Z then Z.max (len + i) 0 else Z.min i len.

Definition slice {A : Type} (xs : list A) (start : Z) (end_ : option Z)
  : list A :=
  let len := Z.of_nat (List.length xs) in
  let k := rel_index len start in
  let final := match end_ with
               | None => len
               | Some e => rel_index len e
               end in
  firstn (Z.to_nat (final - k)) (skipn (Z.to_nat k) xs).

(** [xs[i]]: [undefined] (here [None]) outside the bounds. *)
Definition index {A : Type} (xs : list A) (i : Z) : option A :=
  if (i <? 0)%Z then None else nth_error xs (Z.to_nat i).

(** White space and line terminators, the code units [trim] removes. *)
Definition is_whitespace (c : char16) : bool :=
  ((9 <=? c) && (c <=? 13) || (c =? 32) || (c =? 160) || (c =? 5760)
   || (8192 <=? c) && (c <=? 8202) || (c =? 8232) || (c =? 8233)
   || (c =? 8239) || (c =? 8287) || (c =? 12288) || (c =? 65279))%N.

Fixpoint trimStart (s : jsstring) : jsstring :=
  match s with
  | [] => []
  | c :: s' => if is_whitespace c then trimStart s' else s
  end.

Definition trimEnd (s : jsstring) : jsstring := rev (trimStart (rev s)).

(** [s.trim()] *)
Definition trim (s : jsstring) : jsstring := trimEnd (trimStart s).

(** What [JSON.stringify] keeps of a value, as the client reads it back:
    properties whose value is [undefined] are omitted, [undefined] array
    items and non-finite numbers become [null]. *)
Fixpoint toJSON (v : value) : value :=
  match v with
  | JNumber (Finite q) => v
  | JNumber _ => JNull
  | JArray items =>
      JArray (map (fun x => match toJSON x with
                            | JUndefined => JNull
                            | y => y
                            end) items)
  | JObject props =>
      JObject ((fix go (ps : list (jsstring * value)) :=
                  match ps with
                  | [] => []
                  | (k, x) :: rest =>
                      match toJSON x with
                      | JUndefined => go rest
                      | y => (k, y) :: go rest
                      end
                  end) props)
  | _ => v
  end.

(** The decimal spelling of an array index, used as a property name. *)
Definition index_key (i : nat) : jsstring :=
  js (NilZero.string_of_uint (Nat.to_uint i)).

End Js.

(* ================================================================== *)
(** * The validation library

    The route validates with the zod combinators [z.object], [z.array],
    [z.string], [z.number], [z.enum], [.min], [.max], [.int], [.optional]
    and [.default], runs [safeParse] and answers with [error.format()].
    The library is a dependency of the repository; its combinators are
    embedded here as parsers from a JavaScript value to a typed result that
    accumulate issues, as the library does: a schema that finds a problem
    records an issue under the path of the value and parsing goes on with
    the sibling keys and items. *)
(* ================================================================== *)

Module Zod.
Import Js.

Inductive PathEl :=
| Key (k : jsstring)
| Index (i : nat).

Inductive ZodParsedType :=
| zt_string | zt_nan | zt_number | zt_integer | zt_float | zt_boolean
| zt_undefined | zt_null | zt_array | zt_object.

Inductive ZodIssueCode :=
| invalid_type (expected received : ZodParsedType)
| invalid_enum_value (options : list jsstring) (received : value)
| too_small (type : ZodParsedType) (minimum : Z)
| too_big (type : ZodParsedType) (maximum : Z).

Record ZodIssue := mkIssue {
  code : ZodIssueCode;
  path : list PathEl
}.

Definition getParsedType (v : value) : ZodParsedType :=
  match v with
  | JUndefined => zt_undefined
  | JNull => zt_null
  | JBool _ => zt_boolean
  | JNumber NaN => zt_nan
  | JNumber _ => zt_number
  | JString _ => zt_string
  | JArray _ => zt_array
  | JObject _ => zt_object
  end.

(** The outcome of parsing one value: the parsed data, unless the value is
    of the wrong type, and the issues found in it. *)
Definition ParseReturn (A : Type) : Type := (option A * list ZodIssue)%type.

Definition ZodType (A : Type) : Type := list PathEl -> value -> ParseReturn A.

Definition OK {A : Type} (a : A) : ParseReturn A := (Some a, []).

Definition INVALID {A : Type} (p : list PathEl) (expected : ZodParsedType)
  (v : value) : ParseReturn A :=
  (None, [mkIssue (invalid_type expected (getParsedType v)) p]).

(** Merging of the results of the keys of an object, in the order of the
    shape. *)
Definition ap {A B : Type} (f : ParseReturn (A -> B)) (x : ParseReturn A)
  : ParseReturn B :=
  (match fst f, fst x with
   | Some g, Some a => Some (g a)
   | _, _ => None
   end,
   snd f ++ snd x).

Notation "f <*> x" := (ap f x) (at level 51, left associativity).

(** [z.string()] with an optional [.min(n)] *)
Definition z_string (min : option nat) : ZodType jsstring :=
  fun p v =>
    match v with
    | JString s =>
        (Some s,
         match min with
         | Some n => if List.length s <? n
                     then [mkIssue (too_small zt_string (Z.of_nat n)) p]
                     else []
         | None => []
         end)
    | _ => INVALID p zt_string v
    end.

Inductive NumberCheck :=
| check_int
| check_min (bound : Z)
| check_max (bound : Z).

Definition run_check (p : list PathEl) (n : number) (c : NumberCheck)
  : list ZodIssue :=
  match c with
  | check_int =>
      if isInteger n then [] else [mkIssue (invalid_type zt_integer zt_float) p]
  | check_min b =>
      if num_lt n (of_Z b) then [mkIssue (too_small zt_number b) p] else []
  | check_max b =>
      if num_lt (of_Z b) n then [mkIssue (too_big zt_number b) p] else []
  end.

(** [z.number()] followed by its checks; every check runs. *)
Definition z_number (checks : list NumberCheck) : ZodType number :=
  fun p v =>
    match v with
    | JNumber NaN => INVALID p zt_number v
    | JNumber n => (Some n, flat_map (run_check p n) checks)
    | _ => INVALID p zt_number v
    end.

(** [z.enum([...])] *)
Definition z_enum (options : list jsstring) : ZodType jsstring :=
  fun p v =>
    match v with
    | JString s =>
        if existsb (str_eqb s) options then OK s
        else (None, [mkIssue (invalid_enum_value options v) p])
    | _ => INVALID p zt_string v
    end.

(** [.optional()] *)
Definition z_optional {A : Type} (t : ZodType A) : ZodType (option A) :=
  fun p v =>
    match v with
    | JUndefined => OK None
    | _ => let r := t p v in (option_map Some (fst r), snd r)
    end.

(** [.default(d)] *)
Definition z_default {A : Type} (t : ZodType A) (d : value) : ZodType A :=
  fun p v =>
    match v with
    | JUndefined => t p d
    | _ => t p v
    end.

(** The items of an array, each under its index. *)
Fixpoint parse_items {A : Type} (t : ZodType A) (p : list PathEl) (i : nat)
  (items : list value) : ParseReturn (list A) :=
  match items with
  | [] => OK []
  | x :: rest => OK cons <*> t (p ++ [Index i]) x <*> parse_items t p (S i) rest
  end.

(** [z.array(t)] with an optional [.min(n)] *)
Definition z_array {A : Type} (t : ZodType A) (min : option nat)
  : ZodType (list A) :=
  fun p v =>
    match v with
    | JArray items =>
        let short :=
          match min with
          | Some n => if List.length items <? n
                      then [mkIssue (too_small zt_array (Z.of_nat n)) p]
                      else []
          | None => []
          end in
        let r := parse_items t p 0 items in
        (fst r, short ++ snd r)
    | _ => INVALID p zt_array v
    end.

(** One key of the shape of an object: the schema of the key is run on the
    property (or on [undefined] when the object has none). *)
Definition field {A : Type} (p : list PathEl) (o : value) (k : string)
  (t : ZodType A) : ParseReturn A :=
  t (p ++ [Key (js k)]) (get o (js k)).

(** [z.object(shape)]: a value that is not an object is rejected as a
    whole; otherwise every key of the shape is parsed. Keys outside the
    shape are dropped. *)
Definition z_object {A : Type}
  (shape : list PathEl -> value -> ParseReturn A) : ZodType A :=
  fun p v =>
    match v with
    | JObject _ => shape p v
    | _ => INVALID p zt_object v
    end.

Record ZodError := mkError { issues : list ZodIssue }.

Inductive SafeParseReturn (A : Type) :=
| Success (data : A)
| Failure (error : ZodError).
Arguments Success {A} data.
Arguments Failure {A} error.

(** [schema.safeParse(v)] *)
Definition safeParse {A : Type} (t : ZodType A) (v : value)
  : SafeParseReturn A :=
  match t [] v with
  | (Some a, []) => Success a
  | (_, found) => Failure (mkError found)
  end.

(** ** [error.format()]

    The formatted error is a tree that follows the paths of the issues; the
    node of a path carries, under [_errors], the messages of the issues
    recorded at that path. *)

#[warnings="-register-all"]
Inductive ZodFormattedError :=
| FNode (_errors : list jsstring)
        (children : list (jsstring * ZodFormattedError)).

Definition empty_node : ZodFormattedError := FNode [] [].

Definition path_key (e : PathEl) : jsstring :=
  match e with
  | Key k => k
  | Index i => index_key i
  end.

(** [curr[el] = f(curr[el] || { _errors: [] })] on the children of a node *)
Fixpoint update_child (k : jsstring)
  (f : ZodFormattedError -> ZodFormattedError)
  (cs : list (jsstring * ZodFormattedError))
  : list (jsstring * ZodFormattedError) :=
  match cs with
  | [] => [(k, f empty_node)]
  | (k', c) :: rest =>
      if str_eqb k k' then (k', f c) :: rest
      else (k', c) :: update_child k f rest
  end.

Definition push_error (msg : jsstring) (t : ZodFormattedError)
  : ZodFormattedError :=
  match t with
  | FNode es cs => FNode (es ++ [msg]) cs
  end.

Fixpoint add_issue (p : list jsstring) (msg : jsstring)
  (t : ZodFormattedError) : ZodFormattedError :=
  match p with
  | [] => push_error msg t
  | k :: p' =>
      match t with
      | FNode es cs => FNode es (update_child k (add_issue p' msg) cs)
      end
  end.

Section Format.
(** The message the library writes for an issue (its error map). *)
Variable errorMap : ZodIssue -> jsstring.

Definition format (e : ZodError) : ZodFormattedError :=
  fold_left
    (fun acc i => add_issue (map path_key (path i)) (errorMap i) acc)
    (issues e) empty_node.
End Format.

(** The formatted error as the JavaScript object it is. *)
Fixpoint to_value (t : ZodFormattedError) : value :=
  match t with
  | FNode es cs =>
      JObject ((js "_errors", JArray (map JString es))
               :: (fix go (l : list (jsstring * ZodFormattedError)) :=
                     match l with
                     | [] => []
                     | (k, c) :: rest => (k, to_value c) :: go rest
                     end) cs)
  end.

(** Reading the formatted error: the node under a path. *)
Fixpoint find_child (k : jsstring)
  (cs : list (jsstring * ZodFormattedError)) : option ZodFormattedError :=
  match cs with
  | [] => None
  | (k', c) :: rest => if str_eqb k k' then Some c else find_child k rest
  end.

Fixpoint node_at (p : list jsstring) (t : ZodFormattedError)
  : option ZodFormattedError :=
  match p with
  | [] => Some t
  | k :: p' =>
      match t with
      | FNode _ cs =>
          match find_child k cs with
          | Some c => node_at p' c
          | None => None
          end
      end
  end.

End Zod.

(* ================================================================== *)
(** * The chat route *)
(* ================================================================== *)

Module Chat.
Import Js Zod.

(** ** ENV *)

Record Env := mkEnv {
  env_GEMINI_API_KEY : option jsstring;
  env_GEMINI_MODEL : option jsstring
}.

(** [x || d] for a string [x] that may be [undefined] *)
Definition str_or (x : option jsstring) (d : jsstring) : jsstring :=
  match x with
  | Some (c :: s) => c :: s
  | _ => d
  end.

Definition GEMINI_API_KEY (e : Env) : jsstring :=
  str_or (env_GEMINI_API_KEY e) (js "").

Definition GEMINI_MODEL (e : Env) : jsstring :=
  str_or (env_GEMINI_MODEL e) (js "gemini-1.5-flash").

(** ** TYPES *)

Record MsgIn := mkMsgIn {
  role : jsstring;
  content : jsstring
}.

Record Profile := mkProfile {
  name : option jsstring;
  profile_role : option jsstring;
  skills : option jsstring;
  location : option jsstring;
  experienceYears : option number;
  interests : option jsstring
}.

(** The data [AskSchema] produces. *)
Record Ask := mkAsk {
  messages : list MsgIn;
  intent : jsstring;
  profile : option Profile;
  maxOutputTokens : option number;
  temperature : option number
}.

(** ** VALIDATION *)

Definition MsgSchema : ZodType MsgIn :=
  z_object (fun p o =>
    OK mkMsgIn
    <*> field p o "role" (z_default (z_string None) (JString (js "user")))
    <*> field p o "content" (z_string (Some 1))).

Definition ProfileSchema : ZodType Profile :=
  z_object (fun p o =>
    OK mkProfile
    <*> field p o "name" (z_optional (z_string None))
    <*> field p o "role" (z_optional (z_string None))
    <*> field p o "skills" (z_optional (z_string None))
    <*> field p o "location" (z_optional (z_string None))
    <*> field p o "experienceYears" (z_optional (z_number []))
    <*> field p o "interests" (z_optional (z_string None))).

Definition intents : list jsstring := [js "news"; js "jobs"; js "consult"].

Definition AskSchema : ZodType Ask :=
  z_object (fun p o =>
    OK mkAsk
    <*> field p o "messages" (z_array MsgSchema (Some 1))
    <*> field p o "intent" (z_default (z_enum intents) (JString (js "news")))
    <*> field p o "profile" (z_optional ProfileSchema)
    <*> field p o "maxOutputTokens"
          (z_optional (z_number [check_int; check_min 64; check_max 2048]))
    <*> field p o "temperature"
          (z_optional (z_number [check_min 0; check_max 1]))).

(** ** HELPERS *)

Definition clampText (s : jsstring) (max : Z) : jsstring :=
  match s with
  | [] => js ""
  | _ => if (Z.of_nat (List.length s) >? max)%Z
         then slice s 0 (Some max)
         else s
  end.

(** An object literal [{ role, parts: [{ text }] }]. *)
Definition turn (r text : jsstring) : value :=
  JObject [(js "role", JString r);
           (js "parts", JArray [JObject [(js "text", JString text)]])].

Definition nonblank (s : jsstring) : bool :=
  match trim s with
  | [] => false
  | _ => true
  end.

Definition toGeminiHistory (messages : list MsgIn) (keep : Z) : list value :=
  let recent := slice messages (- keep) None in
  map (fun m =>
         turn (if str_eqb (role m) (js "assistant")
               then js "model" else js "user")
              (clampText (content m) 4000))
      (filter (fun m => nonblank (content m)) recent).

Definition en_dash : jsstring := [8211%N].

Definition base_head : jsstring := js "
Kamu adalah **ArkWork Agent**, asisten situs O&G Monitor.
Berbahasa Indonesia yang jelas, ringkas, dan ramah profesional.
Fokus domain utama: industri migas (oil & gas) Indonesia dan global, serta karier/skills terkait energi.

Aturan umum:
- Tulis jawaban terstruktur (bullet/nomor) bila cocok.
- Beri langkah praktis (step-by-step) dan sumber ide/ checklist.
- Jangan mengarang angka/fakta spesifik jika tidak yakin.
- Untuk saran karier/ konsultasi: jelaskan alasan & alternatif.
- Hindari klaim kesehatan/medis/keuangan/hukum spesifik; gunakan disclaimer ringan & sarankan ahli jika perlu.

Profil pengguna (opsional) untuk personalisasi:
".

Definition base_tail : jsstring := js "
  ".

Definition mode_news : jsstring := js "
Mode: **Berita**
- Jawab pertanyaan seputar berita migas, upstream/downstream, LNG, kebijakan, tender, dan tren harga (tanpa mengarang angka real-time).
- Jika diminta ringkas, buat ringkasan padat + poin penting dan konteks singkat.
- Boleh sarankan kata kunci yang bisa dicari di halaman O&G Monitor.".

Definition mode_jobs : jsstring := js "
Mode: **Rekomendasi Kerja**
- Beri rekomendasi role yang relevan dengan profil pengguna (skills/lokasi/pengalaman).
- Sertakan: jabatan target, alasan cocok, skills yang perlu ditingkatkan, sertifikasi opsional, contoh kata kunci lowongan, dan langkah 30/60/90 hari.
- Jika profil minim, tanyakan 1" ++ en_dash ++ js "2 klarifikasi singkat.".

Definition mode_consult : jsstring := js "
Mode: **Konsultasi**
- Jawab layaknya mentor: uraikan masalah, opsi solusi, trade-off, dan rencana aksi.
- Contoh topik: peningkatan skill, roadmap pindah role, efisiensi operasi, analitik produksi sederhana, dsb.
- Tutup dengan 3" ++ en_dash ++ js "5 next steps yang actionable.".

Definition modes : list (jsstring * value) :=
  [(js "news", JString (trim mode_news));
   (js "jobs", JString (trim mode_jobs));
   (js "consult", JString (trim mode_consult))].

Definition text_of (v : value) : jsstring :=
  match v with
  | JString s => s
  | _ => []
  end.

Section Route.
(** The message text of the validation library for an issue. *)
Variable errorMap : ZodIssue -> jsstring.
(** [JSON.stringify(profile, null, 2)] *)
Variable JSON_stringify : Profile -> jsstring.

Definition buildSystemPrompt (intent : jsstring) (profile : option Profile)
  : jsstring :=
  let base :=
    trim (base_head
          ++ match profile with
             | Some p => JSON_stringify p
             | None => js "(tidak ada profil)"
             end
          ++ base_tail) in
  let mode := text_of (or (lookup intent modes) (lookup (js "news") modes)) in
  base ++ [10%N; 10%N] ++ mode ++ [10%N; 10%N]
    ++ js "Balas ringkas, langsung ke inti, dan mudah dieksekusi.".

(** ** The provider

    Everything between [new GoogleGenerativeAI] and the text of the reply
    is one exchange with the provider: the route hands over the key, the
    model, the history, the generation parameters and the new message,
    and the exchange either resolves with [result.response?.text?.()]
    (possibly [undefined]) or throws. *)

Record ProviderRequest := mkRequest {
  apiKey : jsstring;
  model : jsstring;
  history : list value;
  generationConfig : number * number;
  message : jsstring
}.

Inductive ProviderOutcome :=
| Resolves (text : option jsstring)
| Throws (err : value).

(** What a run of the handler does: it ends with a value, calls the
    provider and goes on with the outcome, or writes to the server log
    and goes on. *)
Inductive Action (A : Type) :=
| Done (a : A)
| SendMessage (req : ProviderRequest) (k : ProviderOutcome -> Action A)
| ConsoleError (args : list value) (k : Action A).
Arguments Done {A} a.
Arguments SendMessage {A} req k.
Arguments ConsoleError {A} args k.

Record Response := mkResponse {
  status : nat;
  body : value
}.

(** [res.status(code).json(v)] *)
Definition res_json (code : nat) (v : value) : Response :=
  mkResponse code (toJSON v).

Definition dquote : jsstring := [34%N].

Definition greeting : jsstring :=
  js "Halo! Saya ArkWork Agent. Saya bisa bantu ringkas berita migas, rekomendasi kerja, dan konsultasi langkah praktis. Coba: "
  ++ dquote ++ js "Berita LNG Indonesia terbaru dalam 3 poin." ++ dquote.

Definition opt_or {A : Type} (x : option A) (d : A) : A :=
  match x with
  | Some a => a
  | None => d
  end.

(** [messages[messages.length - 1]?.content || ''] *)
Definition last_content (msgs : list MsgIn) : jsstring :=
  text_of (or (match index msgs (Z.of_nat (List.length msgs) - 1) with
               | Some m => JString (content m)
               | None => JUndefined
               end)
              (JString (js ""))).

(** What the handler does with the outcome of the exchange: the reply
    of the provider (the rest of the [try] block) or the exception (the
    [catch] block). *)
Definition on_outcome (outcome : ProviderOutcome) : Action Response :=
  match outcome with
  | Resolves t =>
      let text := str_or t (js "") in
      if negb (nonblank text) then
        Done (res_json 502
                (JObject [(js "error", JString (js "EMPTY_RESPONSE"));
                          (js "message",
                           JString (js "AI tidak mengembalikan teks."))]))
      else
        Done (res_json 200 (JObject [(js "answer", JString (trim text))]))
  | Throws err =>
      ConsoleError
        [JString (js "[ArkWork Agent] Gemini error:");
         JObject [(js "message", or (get err (js "message")) err);
                  (js "code", get err (js "code"));
                  (js "status", get err (js "status"));
                  (js "name", get err (js "name"))]]
        (Done (res_json 502
                 (JObject [(js "error", JString (js "AI_ERROR"));
                           (js "code",
                            or (get err (js "code")) (get err (js "status")));
                           (js "message",
                            or (get err (js "message"))
                               (JString (js "Gagal meminta jawaban dari AI.")))])))
  end.

(** The handler once the request is validated (from the destructuring of
    [parsed.data] on). *)
Definition answer (e : Env) (data : Ask) : Action Response :=
  let maxOutputTokens := opt_or (maxOutputTokens data) (of_Z 512) in
  let temperature := opt_or (temperature data) (Finite (3 # 10)) in
  let msgs := messages data in
  let user := last_content msgs in
  if negb (nonblank user) then
    Done (res_json 200 (JObject [(js "answer", JString greeting)]))
  else
    let system := buildSystemPrompt (intent data) (profile data) in
    SendMessage
      (mkRequest (GEMINI_API_KEY e) (GEMINI_MODEL e)
         ([turn (js "user") system; turn (js "model") (js "Siap.")]
          ++ toGeminiHistory (slice msgs 0 (Some (-1)%Z)) 6)
         (maxOutputTokens, temperature)
         (clampText user 4000))
      on_outcome.

(** [router.post('/', ...)] *)
Definition post (e : Env) (req_body : value) : Action Response :=
  match GEMINI_API_KEY e with
  | [] =>
      Done (res_json 503
              (JObject [(js "error", JString (js "GEMINI_API_KEY_MISSING"));
                        (js "message",
                         JString (js "Server AI belum dikonfigurasi. Hubungi admin."))]))
  | _ =>
      match safeParse AskSchema (coalesce req_body (JObject [])) with
      | Failure error =>
          Done (res_json 400
                  (JObject [(js "error", JString (js "BAD_REQUEST"));
                            (js "details", to_value (format errorMap error))]))
      | Success data => answer e data
      end
  end.

(** [router.get('/', ...)]: the health check *)
Definition health (e : Env) : Action Response :=
  Done (res_json 200
          (JObject [(js "ok", JBool true);
                    (js "model", JString (GEMINI_MODEL e));
                    (js "hasKey",
                     JBool (truthy (JString (GEMINI_API_KEY e))))])).

(** ** Running the handler against a provider *)

Record Run := mkRun {
  response : Response;
  calls : list ProviderRequest;
  logged : list (list value)
}.

Fixpoint run (provider : ProviderRequest -> ProviderOutcome)
  (a : Action Response) : Run :=
  match a with
  | Done r => mkRun r [] []
  | SendMessage req k =>
      let r := run provider (k (provider req)) in
      mkRun (response r) (req :: calls r) (logged r)
  | ConsoleError args k =>
      let r := run provider k in
      mkRun (response r) (calls r) (args :: logged r)
  end.

End Route.

Arguments Done {A} a.
Arguments SendMessage {A} req k.
Arguments ConsoleError {A} args k.

End Chat.

(* ================================================================== *)
(** * The application that mounts the route

    The parts of the server set-up that decide which caller reaches the
    chat route and what an unhandled error is answered with: the list of
    allowed origins, the origin check handed to the CORS middleware, and
    the final error handler. *)
(* ================================================================== *)

Module Server.
Import Js Chat.

Definition comma : char16 := 44%N.

(** [s.split(sep)] for a separator of one code unit *)
Fixpoint split (sep : char16) (s : jsstring) : list jsstring :=
  match s with
  | [] => [[]]
  | c :: s' =>
      if (c =? sep)%N then [] :: split sep s'
      else match split sep s' with
           | piece :: pieces => (c :: piece) :: pieces
           | [] => [[c]]
           end
  end.

(** [process.env.FRONTEND_ORIGIN || 'http://localhost:3000'] *)
Definition FRONTEND_ORIGIN (env_FRONTEND_ORIGIN : option jsstring) : jsstring :=
  str_or env_FRONTEND_ORIGIN (js "http://localhost:3000").

(** [FRONTEND_ORIGIN.split(',').map((s) => s.trim()).filter(Boolean)] *)
Definition origins (env_FRONTEND_ORIGIN : option jsstring) : list jsstring :=
  filter (fun s => truthy (JString s))
         (map trim (split comma (FRONTEND_ORIGIN env_FRONTEND_ORIGIN))).

(** What is thrown or handed to [next]: an instance of [Error] with its
    message, or any other value. *)
Inductive Thrown :=
| ErrorObject (message : jsstring)
| NotAnError (v : value).

(** The answer of the origin check to the middleware: [cb(null, true)] or
    [cb(err)]. *)
Inductive Decision :=
| Allowed
| Refused (err : Thrown).

(** [corsOptions.origin]; the origin of the request may be [undefined]. *)
Definition origin_check (env_FRONTEND_ORIGIN : option jsstring)
  (origin : option jsstring) : Decision :=
  match origin with
  | None | Some [] => Allowed
  | Some o =>
      if existsb (str_eqb o) (origins env_FRONTEND_ORIGIN) then Allowed
      else Refused (ErrorObject (js "Not allowed by CORS"))
  end.

(** The final error handler: it writes the error to the server log and
    answers 403 for the refusal of the origin check and 500 for anything
    else. *)
Definition errorHandler (err : Thrown) : list Thrown * Response :=
  ([err],
   match err with
   | ErrorObject m =>
       if str_eqb m (js "Not allowed by CORS")
       then res_json 403
              (JObject [(js "error", JString (js "CORS: Origin not allowed"))])
       else res_json 500
              (JObject [(js "error", JString (js "Internal server error"))])
   | NotAnError _ =>
       res_json 500
         (JObject [(js "error", JString (js "Internal server error"))])
   end).

End Server.

(* ================================================================== *)
(** * Vocabulary of the statements *)
(* ================================================================== *)

Import Js Zod Chat.

(** A string is whitespace-only when all its code units are white space
    (the empty string included). *)
Definition whitespace_only (s : jsstring) : Prop :=
  Forall (fun c => is_whitespace c = true) s.

(** The provider turn of a message: the role mapped, the text clamped. *)
Definition forwarded_turn (m : MsgIn) : value :=
  turn (if str_eqb (role m) (js "assistant") then js "model" else js "user")
       (clampText (content m) 4000).

Definition msg (r c : string) : MsgIn := mkMsgIn (js r) (js c).

(** A credential is configured when the environment variable is set to a
    non-empty string. *)
Definition has_credential (e : Env) : bool :=
  match env_GEMINI_API_KEY e with
  | Some (_ :: _) => true
  | _ => false
  end.

(** The handler has validated a request when the credential check has
    passed and the body (the empty object, if there is none) has parsed
    into the data. *)
Definition validated (e : Env) (req_body : value) (data : Ask) : Prop :=
  has_credential e = true
  /\ safeParse AskSchema (coalesce req_body (JObject [])) = Success data.

(** The final message of the list, whose content is the new user turn. *)
Definition final_message (msgs : list MsgIn) : option MsgIn :=
  nth_error msgs (List.length msgs - 1).

(** A request with the single message [{ content: s }]. *)
Definition single_message (s : jsstring) : value :=
  JObject [(js "messages", JArray [JObject [(js "content", JString s)]])].

(** The request the handler sends for validated data. *)
Definition request_for (JSON_stringify : Profile -> jsstring) (e : Env)
  (data : Ask) : ProviderRequest :=
  mkRequest (GEMINI_API_KEY e) (GEMINI_MODEL e)
    ([turn (js "user")
        (buildSystemPrompt JSON_stringify (intent data) (profile data));
      turn (js "model") (js "Siap.")]
     ++ toGeminiHistory (slice (messages data) 0 (Some (-1)%Z)) 6)
    (opt_or (maxOutputTokens data) (of_Z 512),
     opt_or (temperature data) (Finite (3 # 10)))
    (clampText (last_content (messages data)) 4000).

(** The six messages before the final one. *)
Definition six_before_final (msgs : list MsgIn) : list MsgIn :=
  firstn 6 (skipn (List.length msgs - 7) msgs).

(** The node under a path exists and carries at least one message. *)
Definition has_error (p : list jsstring) (t : ZodFormattedError) : Prop :=
  exists es cs, node_at p t = Some (FNode es cs) /\ es <> [].

(** The inclusive range [[lo, hi]]. *)
Definition in_range (lo hi : Z) (n : number) : bool :=
  match n with
  | Finite q => Qle_bool (inject_Z lo) q && Qle_bool q (inject_Z hi)
  | _ => false
  end.

(** The paths of the messages whose [content] is the empty string. *)
Fixpoint empty_contents (i : nat) (items : list value) : list (list PathEl) :=
  match items with
  | [] => []
  | x :: rest =>
      match get x (js "content") with
      | JString [] => [[Key (js "messages"); Index i; Key (js "content")]]
      | _ => []
      end ++ empty_contents (S i) rest
  end.

Definition messages_violations (o : value) : list (list PathEl) :=
  match get o (js "messages") with
  | JUndefined => [[Key (js "messages")]]
  | JArray [] => [[Key (js "messages")]]
  | JArray items => empty_contents 0 items
  | _ => []
  end.

Definition intent_violations (o : value) : list (list PathEl) :=
  match get o (js "intent") with
  | JUndefined => []
  | JString s =>
      if existsb (str_eqb s) [js "news"; js "jobs"; js "consult"] then []
      else [[Key (js "intent")]]
  | _ => [[Key (js "intent")]]
  end.

Definition maxOutputTokens_violations (o : value) : list (list PathEl) :=
  match get o (js "maxOutputTokens") with
  | JUndefined => []
  | JNumber n =>
      if isInteger n && in_range 64 2048 n then []
      else [[Key (js "maxOutputTokens")]]
  | _ => [[Key (js "maxOutputTokens")]]
  end.

Definition temperature_violations (o : value) : list (list PathEl) :=
  match get o (js "temperature") with
  | JUndefined => []
  | JNumber n =>
      if in_range 0 1 n then [] else [[Key (js "temperature")]]
  | _ => [[Key (js "temperature")]]
  end.

(** The fields of a request body that violate the schema in one of the
    ways the design lists: [messages] missing or empty, a message with an
    empty [content], [intent] present and not one of the three intents,
    [maxOutputTokens] present and not an integer of [[64, 2048]],
    [temperature] present and not in [[0, 1]]. A request without a body is
    the empty request; a body that is not an object violates the schema as
    a whole (the empty path). *)
Definition violated_fields (req_body : value) : list (list PathEl) :=
  match req_body with
  | JUndefined | JNull => [[Key (js "messages")]]
  | JObject _ =>
      messages_violations req_body ++ intent_violations req_body
      ++ maxOutputTokens_violations req_body
      ++ temperature_violations req_body
  | _ => [[]]
  end.

Definition reported (l : list ZodIssue) (p : list PathEl) : Prop :=
  exists i, In i l /\ path i = p.

(** Reading a JavaScript value along a path of property names. *)
Fixpoint json_at (p : list jsstring) (v : value) : value :=
  match p with
  | [] => v
  | k :: p' => json_at p' (get v k)
  end.

(** The report describes a field when the object under the path of the
    field has a non-empty array of messages as [_errors]. *)
Definition described (details : value) (p : list PathEl) : Prop :=
  exists m ms,
    get (json_at (map path_key p) details) (js "_errors")
    = JArray (JString m :: ms).

Definition children_props (cs : list (jsstring * ZodFormattedError))
  : list (jsstring * value) :=
  map (fun kc => (fst kc, to_value (snd kc))) cs.

(** The five properties of a request the schema reads. *)
Definition schema_keys : list jsstring :=
  [js "messages"; js "intent"; js "profile"; js "maxOutputTokens";
   js "temperature"].

(** What holds of validated data: at least one message, no empty content,
    one of the three intents, the generation parameters within their
    bounds when given, and no NaN for the years of experience. *)
Definition well_formed (data : Ask) : Prop :=
  messages data <> []
  /\ Forall (fun m => content m <> []) (messages data)
  /\ In (intent data) [js "news"; js "jobs"; js "consult"]
  /\ (forall n, maxOutputTokens data = Some n ->
                isInteger n = true /\ in_range 64 2048 n = true)
  /\ (forall t, temperature data = Some t -> in_range 0 1 t = true)
  /\ (forall p, profile data = Some p -> experienceYears p <> Some NaN).

(** The persona and rules that open every system prompt, and the
    instruction that closes it. *)
Definition rules : jsstring := trim base_head.

Definition closing : jsstring :=
  js "Balas ringkas, langsung ke inti, dan mudah dieksekusi.".

(** The text that stands for the profile in the system prompt. *)
Definition profile_text (JSON_stringify : Profile -> jsstring)
  (profile : option Profile) : jsstring :=
  match profile with
  | Some p => JSON_stringify p
  | None => js "(tidak ada profil)"
  end.

(** The instruction block of an intent. *)
Definition mode_block (intent : jsstring) : jsstring :=
  if str_eqb intent (js "jobs") then trim mode_jobs
  else if str_eqb intent (js "consult") then trim mode_consult
  else trim mode_news.

(** The request object a caller writes for given data: a property that is
    not given is left out. *)
Definition opt_prop {A : Type} (k : string) (enc : A -> value) (x : option A)
  : list (jsstring * value) :=
  match x with
  | Some a => [(js k, enc a)]
  | None => []
  end.

Definition encode_msg (m : MsgIn) : value :=
  JObject [(js "role", JString (role m)); (js "content", JString (content m))].

Definition encode_profile (p : Profile) : value :=
  JObject (opt_prop "name" JString (name p)
           ++ opt_prop "role" JString (profile_role p)
           ++ opt_prop "skills" JString (skills p)
           ++ opt_prop "location" JString (location p)
           ++ opt_prop "experienceYears" JNumber (experienceYears p)
           ++ opt_prop "interests" JString (interests p)).

Definition encode (data : Ask) : value :=
  JObject ([(js "messages", JArray (map encode_msg (messages data)));
            (js "intent", JString (intent data))]
           ++ opt_prop "profile" encode_profile (profile data)
           ++ opt_prop "maxOutputTokens" JNumber (maxOutputTokens data)
           ++ opt_prop "temperature" JNumber (temperature data)).

(** The outcome of the schema from the outcomes of its five keys. *)
Definition assemble (r1 : ParseReturn (list MsgIn)) (r2 : ParseReturn jsstring)
  (r3 : ParseReturn (option Profile)) (r4 r5 : ParseReturn (option number))
  : ParseReturn Ask :=
  OK mkAsk <*> r1 <*> r2 <*> r3 <*> r4 <*> r5.

(** What the handler does with the outcome of the schema. *)
Definition handle_outcome (errorMap : ZodIssue -> jsstring)
  (JSON_stringify : Profile -> jsstring) (e : Env) (r : ParseReturn Ask)
  : Action Response :=
  match GEMINI_API_KEY e with
  | [] =>
      Done (res_json 503
              (JObject [(js "error", JString (js "GEMINI_API_KEY_MISSING"));
                        (js "message",
                         JString (js "Server AI belum dikonfigurasi. Hubungi admin."))]))
  | _ =>
      match (match r with
             | (Some a, []) => Success a
             | (_, found) => Failure (mkError found)
             end) with
      | Failure error =>
          Done (res_json 400
                  (JObject [(js "error", JString (js "BAD_REQUEST"));
                            (js "details", to_value (format errorMap error))]))
      | Success data => Chat.answer JSON_stringify e data
      end
  end.

(* ================================================================== *)
(** * Sample inputs *)
(* ================================================================== *)

(** Stand-ins for the two library functions the route is parametric in. *)
Definition stub_errorMap (i : ZodIssue) : jsstring := js "Invalid input".
Definition stub_stringify (p : Profile) : jsstring := js "{}".

Definition env_with_key : Env := mkEnv (Some (js "test-key")) None.
Definition env_without_key : Env := mkEnv None None.

Definition object (props : list (string * value)) : value :=
  JObject (map (fun kv => (js (fst kv), snd kv)) props).

Definition message (r c : string) : value :=
  object [("role", JString (js r)); ("content", JString (js c))]%string.

(** [{ messages: [{ role: "user", content: "hello" }] }] *)
Definition hello_request : value :=
  object [("messages", JArray [message "user" "hello"])]%string.

Definition hello_data : Ask :=
  mkAsk [msg "user" "hello"] (js "news") None None None.

(** A provider that always replies with the same text. *)
Definition replying (text : string) (req : ProviderRequest) : ProviderOutcome :=
  Resolves (Some (js text)).

(** A provider that always throws the same exception. *)
Definition throwing (err : value) (req : ProviderRequest) : ProviderOutcome :=
  Throws err.

Definition run_hello (provider : ProviderRequest -> ProviderOutcome) : Run :=
  run provider (post stub_errorMap stub_stringify env_with_key hello_request).

(** An exception with a status, a message and a stack trace. *)
Definition unavailable : value :=
  object [("status", JNumber (of_Z 503));
          ("message", JString (js "Service Unavailable"));
          ("name", JString (js "Error"));
          ("stack", JString (js "Error: Service Unavailable at chat.ts"))]%string.

(** An exception whose [code] is present and falsy. *)
Definition zero_code : value :=
  object [("code", JNumber (of_Z 0));
          ("status", JNumber (of_Z 429));
          ("message", JString (js "quota"))]%string.

(** Eight messages; the fifth, one of the six before the final one, is a
    single space. *)
Definition talk (fifth : string) : list (string * string) :=
  [("user", "q1"); ("assistant", "a1"); ("user", "q2"); ("assistant", "a2");
   ("user", fifth); ("assistant", "a3"); ("user", "q4"); ("user", "now")]%string.

Definition talk_request (fifth : string) : value :=
  object [("messages",
           JArray (map (fun rc => message (fst rc) (snd rc)) (talk fifth)))]%string.

Definition talk_data (fifth : string) : Ask :=
  mkAsk (map (fun rc => msg (fst rc) (snd rc)) (talk fifth))
        (js "news") None None None.

Definition run_talk (fifth : string) : Run :=
  run (replying "ok")
      (post stub_errorMap stub_stringify env_with_key (talk_request fifth)).

(** A body that violates the schema in four fields. *)
Definition bad_request : value :=
  object [("messages", JArray [message "user" ""]);
          ("intent", JString (js "chat"));
          ("maxOutputTokens", JNumber (Finite (3 # 2)));
          ("temperature", JNumber (of_Z 2))]%string.

(** A conversation as a request and as the data it parses into. *)
Definition dialogue_request (turns : list (string * string)) : value :=
  object [("messages",
           JArray (map (fun rc => message (fst rc) (snd rc)) turns))]%string.

Definition dialogue_data (turns : list (string * string)) : Ask :=
  mkAsk (map (fun rc => msg (fst rc) (snd rc)) turns)
        (js "news") None None None.

(** Three messages, the second a single space. *)
Definition short_talk : list (string * string) :=
  [("user", "q1"); ("assistant", " "); ("user", "now")]%string.

(* ================================================================== *)
(** * Properties *)
(* ================================================================== *)

(** ** Strings, [slice] and [trim] *)

Lemma str_eqb_spec (a b : jsstring) : str_eqb a b = true <-> a = b.
Proof.
  revert b; induction a as [|x a IH]; intros [|y b]; simpl;
    try (split; [discriminate | discriminate]); try tauto.
  rewrite andb_true_iff, N.eqb_eq, IH.
  split; [intros [-> ->]; reflexivity | intros H; inversion H; auto].
Qed.

Lemma str_eqb_refl (a : jsstring) : str_eqb a a = true.
Proof. apply str_eqb_spec; reflexivity. Qed.

(** [xs.slice(-n)] keeps the last [n] elements. *)
Lemma slice_last {A : Type} (xs : list A) (n : nat) :
  0 < n ->
  slice xs (- Z.of_nat n) None = skipn (List.length xs - n) xs.
Proof.
  intros Hn. unfold slice, rel_index.
  destruct (Z.ltb_spec (- Z.of_nat n) 0) as [_|]; [|lia].
  set (len := List.length xs).
  replace (Z.to_nat (Z.max (Z.of_nat len + - Z.of_nat n) 0)) with (len - n) by lia.
  apply firstn_all2. rewrite length_skipn. fold len. lia.
Qed.

(** [xs.slice(0, -1)] drops the last element. *)
Lemma slice_init {A : Type} (xs : list A) :
  slice xs 0 (Some (-1)%Z) = firstn (List.length xs - 1) xs.
Proof.
  unfold slice, rel_index. simpl.
  replace (Z.min 0 (Z.of_nat (List.length xs))) with 0%Z by lia.
  simpl. f_equal. lia.
Qed.

(** [s.slice(0, n)] is the prefix of length [n]. *)
Lemma slice_prefix {A : Type} (xs : list A) (n : nat) :
  slice xs 0 (Some (Z.of_nat n)) = firstn n xs.
Proof.
  unfold slice, rel_index. simpl.
  replace (Z.min 0 (Z.of_nat (List.length xs))) with 0%Z by lia.
  destruct (Z.ltb_spec (Z.of_nat n) 0) as [|_]; [lia|].
  rewrite Z.sub_0_r. simpl.
  destruct (Nat.le_gt_cases n (List.length xs)).
  - f_equal. lia.
  - replace (Z.to_nat (Z.min (Z.of_nat n) (Z.of_nat (List.length xs))))
      with (List.length xs) by lia.
    rewrite !firstn_all2; auto; lia.
Qed.

Lemma trimStart_nil (s : jsstring) : trimStart s = [] <-> whitespace_only s.
Proof.
  unfold whitespace_only. induction s as [|c s IH]; simpl.
  - split; constructor.
  - destruct (is_whitespace c) eqn:E.
    + rewrite IH. split; [constructor; auto | inversion 1; auto].
    + split; [discriminate | inversion 1; congruence].
Qed.

Lemma trimStart_head (s : jsstring) :
  trimStart s = [] \/
  exists c r, trimStart s = c :: r /\ is_whitespace c = false.
Proof.
  induction s as [|c s IH]; simpl; auto.
  destruct (is_whitespace c) eqn:E; auto.
  right; eauto.
Qed.

Lemma trimEnd_nil (s : jsstring) : trimEnd s = [] <-> whitespace_only s.
Proof.
  unfold trimEnd. split.
  - intros H. apply (f_equal (@rev _)) in H. rewrite rev_involutive in H.
    simpl in H. apply trimStart_nil in H. unfold whitespace_only in *.
    rewrite Forall_forall in *. intros c Hc. apply H. now apply in_rev in Hc.
  - intros H. replace (trimStart (rev s)) with (@nil char16); auto.
    symmetry. apply trimStart_nil. unfold whitespace_only in *.
    rewrite Forall_forall in *. intros c Hc. apply H. now apply in_rev.
Qed.

(** [s.trim()] is empty exactly for the whitespace-only strings. *)
Lemma trim_nil (s : jsstring) : trim s = [] <-> whitespace_only s.
Proof.
  unfold trim. rewrite trimEnd_nil. split.
  - intros H. destruct (trimStart_head s) as [E | (c & r & E & Hc)].
    + now apply trimStart_nil.
    + rewrite E in H. inversion H; congruence.
  - intros H. apply trimStart_nil in H. rewrite H. constructor.
Qed.

Lemma nonblank_false (s : jsstring) : nonblank s = false <-> whitespace_only s.
Proof.
  unfold nonblank. rewrite <- trim_nil.
  destruct (trim s); split; congruence.
Qed.

Lemma nonblank_true (s : jsstring) : nonblank s = true <-> trim s <> [].
Proof.
  unfold nonblank. destruct (trim s); split; congruence.
Qed.

(** ** The clamp *)

(** C3. [clampText] with the bound 4000 returns a string of at most 4000
    code units unchanged, and cuts a longer string to its first 4000 code
    units; it never fails. *)
Theorem clampText_4000 (s : jsstring) :
  (List.length s <= 4000 -> clampText s 4000 = s) /\
  (4000 < List.length s ->
   clampText s 4000 = firstn 4000 s /\
   List.length (clampText s 4000) = 4000).
Proof.
  assert (E : clampText s 4000 =
              if 4000 <? List.length s then firstn 4000 s else s).
  { unfold clampText. destruct s as [|c s]; [reflexivity|].
    change 4000%Z with (Z.of_nat 4000) at 1 2.
    rewrite slice_prefix.
    destruct (Nat.ltb_spec 4000 (List.length (c :: s)));
      destruct (Z.gtb_spec (Z.of_nat (List.length (c :: s))) (Z.of_nat 4000));
      auto; lia. }
  rewrite E. split; intros H.
  - destruct (Nat.ltb_spec 4000 (List.length s)); auto; lia.
  - destruct (Nat.ltb_spec 4000 (List.length s)); [|lia].
    split; auto. rewrite length_firstn. lia.
Qed.

(** ** The history window *)

(** The role of a provider turn is ["model"] for an assistant message and
    ["user"] for every other role. *)
Lemma forwarded_turn_role (m : MsgIn) :
  get (forwarded_turn m) (js "role") =
  JString (if str_eqb (role m) (js "assistant") then js "model" else js "user")
  /\ (role m = js "assistant" ->
      get (forwarded_turn m) (js "role") = JString (js "model"))
  /\ (role m <> js "assistant" ->
      get (forwarded_turn m) (js "role") = JString (js "user")).
Proof.
  split; [reflexivity|]. split; intros H.
  - unfold forwarded_turn. rewrite H. reflexivity.
  - unfold forwarded_turn.
    destruct (str_eqb (role m) (js "assistant")) eqn:E; [|reflexivity].
    apply str_eqb_spec in E. contradiction.
Qed.

(** The window is computed from the last [keep] messages alone. *)
Lemma toGeminiHistory_eq (msgs : list MsgIn) :
  toGeminiHistory msgs 6 =
  map forwarded_turn
    (filter (fun m => nonblank (content m))
            (skipn (List.length msgs - 6) msgs)).
Proof.
  unfold toGeminiHistory.
  replace (slice msgs (- (6)) None)
    with (slice msgs (- Z.of_nat 6) None) by reflexivity.
  rewrite slice_last by lia. reflexivity.
Qed.

Lemma filter_length_lt {A : Type} (f : A -> bool) (l : list A) (x : A) :
  In x l -> f x = false -> List.length (filter f l) < List.length l.
Proof.
  induction l as [|y l IH]; simpl; [tauto|].
  intros [-> | Hin] Hx.
  - rewrite Hx. pose proof (filter_length_le f l). lia.
  - specialize (IH Hin Hx). destruct (f y); simpl; lia.
Qed.

(** C9. The window is cut to the six most recent prior messages first and
    the whitespace-only ones are dropped afterwards: when one of the six
    messages before the final one is whitespace-only, fewer than six turns
    are forwarded, and the turns are those of the other messages among the
    six; no earlier message is forwarded in its place. *)
Theorem history_window_cut_before_filter
  (earlier recent : list MsgIn) (m : MsgIn) :
  List.length recent = 6 ->
  In m recent ->
  whitespace_only (content m) ->
  List.length (toGeminiHistory (earlier ++ recent) 6) < 6
  /\ toGeminiHistory (earlier ++ recent) 6 = toGeminiHistory recent 6
  /\ toGeminiHistory (earlier ++ recent) 6 =
     map forwarded_turn (filter (fun x => nonblank (content x)) recent).
Proof.
  intros Hlen Hin Hws.
  assert (E : toGeminiHistory (earlier ++ recent) 6 =
              map forwarded_turn
                  (filter (fun x => nonblank (content x)) recent)).
  { rewrite toGeminiHistory_eq, length_app, Hlen.
    replace (List.length earlier + 6 - 6) with (List.length earlier + 0) by lia.
    now rewrite skipn_app, Nat.add_0_r, skipn_all, Nat.sub_diag. }
  split; [|split]; auto.
  - rewrite E, length_map, <- Hlen.
    apply filter_length_lt with (x := m); auto.
    now apply nonblank_false.
  - rewrite E, toGeminiHistory_eq, Hlen. reflexivity.
Qed.

Lemma history_window_cut_before_filter_witness :
  List.length (toGeminiHistory
            ([msg "user" "a"; msg "assistant" "b"]
             ++ [msg "user" "c"; msg "assistant" "d"; msg "user" " ";
                 msg "assistant" "e"; msg "user" "f"; msg "assistant" "g"]) 6)
  < 6.
Proof.
  apply (history_window_cut_before_filter
           [msg "user" "a"; msg "assistant" "b"]
           [msg "user" "c"; msg "assistant" "d"; msg "user" " ";
            msg "assistant" "e"; msg "user" "f"; msg "assistant" "g"]
           (msg "user" " ")).
  - reflexivity.
  - simpl. auto 10.
  - repeat constructor.
Defined.

(** ** The handler *)

Section Handler.
Variable errorMap : ZodIssue -> jsstring.
Variable JSON_stringify : Profile -> jsstring.

Local Abbreviation post := (Chat.post errorMap JSON_stringify).
Local Abbreviation answer := (Chat.answer JSON_stringify).

Lemma has_credential_key (e : Env) :
  has_credential e = true -> GEMINI_API_KEY e <> [].
Proof.
  unfold has_credential, GEMINI_API_KEY, str_or.
  destruct (env_GEMINI_API_KEY e) as [[|c s]|]; discriminate.
Qed.

Lemma no_credential_key (e : Env) :
  has_credential e = false -> GEMINI_API_KEY e = [].
Proof.
  unfold has_credential, GEMINI_API_KEY, str_or.
  destruct (env_GEMINI_API_KEY e) as [[|c s]|]; auto; discriminate.
Qed.

Lemma last_content_final (msgs : list MsgIn) (m : MsgIn) :
  final_message msgs = Some m -> last_content msgs = content m.
Proof.
  unfold final_message, last_content, index. intros H.
  destruct msgs as [|x msgs]; [discriminate|].
  destruct (Z.ltb_spec (Z.of_nat (List.length (x :: msgs)) - 1) 0) as [L|_].
  { simpl List.length in L. lia. }
  replace (Z.to_nat (Z.of_nat (List.length (x :: msgs)) - 1))
    with (List.length (x :: msgs) - 1) by lia.
  rewrite H. unfold or. simpl. now destruct (content m).
Qed.

(** With a credential the handler validates the body and goes on with the
    validated data. *)
Lemma post_configured (e : Env) (req_body : value) :
  has_credential e = true ->
  post e req_body =
  match safeParse AskSchema (coalesce req_body (JObject [])) with
  | Failure error =>
      Done (res_json 400
              (JObject [(js "error", JString (js "BAD_REQUEST"));
                        (js "details", to_value (format errorMap error))]))
  | Success data => answer e data
  end.
Proof.
  intros H. apply has_credential_key in H. unfold Chat.post.
  destruct (GEMINI_API_KEY e); [contradiction | reflexivity].
Qed.

(** The handling of an outcome makes no further call. *)
Lemma on_outcome_calls provider (o : ProviderOutcome) :
  calls (run provider (on_outcome o)) = [].
Proof.
  destruct o as [t|err]; simpl; [|reflexivity].
  destruct (negb (nonblank (str_or t (js "")))); reflexivity.
Qed.

(** A run of the handler calls the provider at most once, and what it
    answers after a call is decided by [on_outcome]. *)
Lemma post_call provider (e : Env) (req_body : value) (req : ProviderRequest) :
  In req (calls (run provider (post e req_body))) ->
  calls (run provider (post e req_body)) = [req]
  /\ response (run provider (post e req_body)) =
     response (run provider (on_outcome (provider req))).
Proof.
  unfold Chat.post.
  destruct (GEMINI_API_KEY e); [simpl; tauto|].
  destruct (safeParse AskSchema _) as [data|err]; [|simpl; tauto].
  unfold Chat.answer.
  destruct (negb (nonblank (last_content (messages data)))); [simpl; tauto|].
  simpl. rewrite on_outcome_calls. simpl.
  intros [<- | []]. auto.
Qed.

(** C5. Without a credential every request body, valid or not, is
    answered with 503 and [GEMINI_API_KEY_MISSING]; the body is not
    looked at and the provider is not called. *)
Theorem missing_credential_503 provider (e : Env) (req_body : value) :
  has_credential e = false ->
  run provider (post e req_body) =
  mkRun (mkResponse 503
           (JObject [(js "error", JString (js "GEMINI_API_KEY_MISSING"));
                     (js "message",
                      JString (js "Server AI belum dikonfigurasi. Hubungi admin."))]))
        [] [].
Proof.
  intros H. apply no_credential_key in H.
  unfold Chat.post. rewrite H. reflexivity.
Qed.

(** The fast path: a blank final message ends the handler at once. *)
Lemma answer_blank (e : Env) (data : Ask) (m : MsgIn) :
  final_message (messages data) = Some m ->
  whitespace_only (content m) ->
  answer e data =
  Done (mkResponse 200 (JObject [(js "answer", JString greeting)])).
Proof.
  intros Hm Hws. unfold Chat.answer.
  rewrite (last_content_final _ _ Hm).
  apply nonblank_false in Hws. rewrite Hws. reflexivity.
Qed.

(** C4. A validated request whose final message is empty or
    whitespace-only is answered with 200 and the canned greeting, and
    the provider is not called. *)
Theorem blank_turn_greeting provider (e : Env) (req_body : value)
  (data : Ask) (m : MsgIn) :
  validated e req_body data ->
  final_message (messages data) = Some m ->
  whitespace_only (content m) ->
  run provider (post e req_body) =
  mkRun (mkResponse 200 (JObject [(js "answer", JString greeting)])) [] [].
Proof.
  intros [Hk Hp] Hm Hws.
  rewrite (post_configured _ _ Hk), Hp, (answer_blank _ _ _ Hm Hws).
  reflexivity.
Qed.

(** C6. When the provider replies with a text that is empty or
    whitespace-only (or with no text at all), the answer is 502 with
    [EMPTY_RESPONSE] and a message. *)
Theorem empty_reply_502 provider (e : Env) (req_body : value)
  (req : ProviderRequest) (t : option jsstring) :
  In req (calls (run provider (post e req_body))) ->
  provider req = Resolves t ->
  (forall s, t = Some s -> trim s = []) ->
  response (run provider (post e req_body)) =
  mkResponse 502
    (JObject [(js "error", JString (js "EMPTY_RESPONSE"));
              (js "message", JString (js "AI tidak mengembalikan teks."))]).
Proof.
  intros Hin Hr Ht.
  destruct (post_call _ _ _ _ Hin) as [_ ->]. rewrite Hr.
  unfold on_outcome. cbv zeta.
  assert (E : nonblank (str_or t (js "")) = false).
  { apply nonblank_false, trim_nil.
    destruct t as [[|c s]|]; simpl; auto. }
  rewrite E. reflexivity.
Qed.

(** C7 (amended). When the provider replies with a text that is not
    empty once trimmed, the answer is 200 with the trimmed text as
    [answer]. *)
Theorem text_reply_200 provider (e : Env) (req_body : value)
  (req : ProviderRequest) (t : jsstring) :
  In req (calls (run provider (post e req_body))) ->
  provider req = Resolves (Some t) ->
  trim t <> [] ->
  response (run provider (post e req_body)) =
  mkResponse 200 (JObject [(js "answer", JString (trim t))]).
Proof.
  intros Hin Hr Ht.
  destruct (post_call _ _ _ _ Hin) as [_ ->]. rewrite Hr.
  assert (E : str_or (Some t) (js "") = t) by (destruct t; reflexivity).
  unfold on_outcome. cbv zeta.
  rewrite E. apply nonblank_true in Ht. rewrite Ht. reflexivity.
Qed.

Lemma toJSON_undefined (v : value) : toJSON v = JUndefined -> v = JUndefined.
Proof.
  destruct v as [| |b|n|s|items|props]; simpl; try discriminate; auto.
  destruct n; discriminate.
Qed.

Lemma truthy_defined (v : value) : truthy v = true -> v <> JUndefined.
Proof. intros H ->. discriminate. Qed.

(** C8 (amended). When the exchange with the provider throws, the answer
    is 502; its body has no property besides [error], [code] and
    [message]; [error] is ["AI_ERROR"]; [code] is the [code] of the
    exception when that is truthy and its [status] otherwise (and is
    left out when that is [undefined]); [message] is the [message] of
    the exception when that is truthy and the fixed text otherwise. *)
Theorem provider_exception_502 provider (e : Env) (req_body : value)
  (req : ProviderRequest) (err : value) :
  In req (calls (run provider (post e req_body))) ->
  provider req = Throws err ->
  let r := response (run provider (post e req_body)) in
  status r = 502
  /\ incl (keys (body r)) [js "error"; js "code"; js "message"]
  /\ get (body r) (js "error") = JString (js "AI_ERROR")
  /\ get (body r) (js "code") =
     toJSON (if truthy (get err (js "code")) then get err (js "code")
             else get err (js "status"))
  /\ get (body r) (js "message") =
     toJSON (if truthy (get err (js "message")) then get err (js "message")
             else JString (js "Gagal meminta jawaban dari AI.")).
Proof.
  intros Hin Hr r. subst r.
  destruct (post_call _ _ _ _ Hin) as [_ ->]. rewrite Hr.
  unfold on_outcome, run, response, res_json, status, body, or.
  set (c := if truthy (get err (js "code")) then _ else _).
  set (m := if truthy (get err (js "message")) then _ else _).
  assert (Hm : toJSON m <> JUndefined).
  { intros H. apply toJSON_undefined in H. subst m.
    destruct (truthy (get err (js "message"))) eqn:T; [|discriminate].
    now apply truthy_defined in T. }
  split; [reflexivity|].
  simpl toJSON.
  destruct (toJSON c) eqn:Ec; destruct (toJSON m) eqn:Em;
    try congruence;
    (split; [intros k; simpl; tauto|]);
    repeat split; reflexivity.
Qed.

(** ** Whitespace-only content passes validation *)

Lemma single_message_valid (s : jsstring) :
  s <> [] ->
  safeParse AskSchema (single_message s) =
  Success (mkAsk [mkMsgIn (js "user") s] (js "news") None None None).
Proof.
  intros Hs. destruct s as [|c s]; [contradiction|]. reflexivity.
Qed.

(** C10. The minimum length of [content] counts white space: a request
    whose only message has a non-empty whitespace-only content passes
    validation (no [BAD_REQUEST]), and the handler answers it with the
    canned greeting without calling the provider; so does the handler for
    any validated data whose final message has such a content. *)
Theorem whitespace_content_accepted provider (e : Env) (s : jsstring) :
  s <> [] ->
  whitespace_only s ->
  safeParse AskSchema (coalesce (single_message s) (JObject [])) =
    Success (mkAsk [mkMsgIn (js "user") s] (js "news") None None None)
  /\ (has_credential e = true ->
      run provider (post e (single_message s)) =
      mkRun (mkResponse 200 (JObject [(js "answer", JString greeting)])) [] [])
  /\ (forall data r,
        final_message (messages data) = Some (mkMsgIn r s) ->
        answer e data =
        Done (mkResponse 200 (JObject [(js "answer", JString greeting)]))).
Proof.
  intros Hs Hws.
  assert (P := single_message_valid s Hs).
  split; [exact P|]. split; [|intros data r Hm; now apply (answer_blank e data _ Hm)].
  intros Hk.
  rewrite (post_configured _ _ Hk).
  change (coalesce (single_message s) (JObject [])) with (single_message s).
  rewrite P.
  rewrite (answer_blank e _ (mkMsgIn (js "user") s)); auto.
Qed.

(** ** The history forwarded to the provider *)

(** The provider is called only for a validated request with a non-blank
    final message, and with the request above. *)
Lemma post_request provider (e : Env) (req_body : value) (req : ProviderRequest) :
  In req (calls (run provider (post e req_body))) ->
  exists data,
    safeParse AskSchema (coalesce req_body (JObject [])) = Success data
    /\ nonblank (last_content (messages data)) = true
    /\ req = request_for JSON_stringify e data.
Proof.
  unfold Chat.post.
  destruct (GEMINI_API_KEY e) eqn:K; [simpl; tauto|]. clear K.
  destruct (safeParse AskSchema _) as [data|err]; [|simpl; tauto].
  unfold Chat.answer.
  destruct (nonblank (last_content (messages data))) eqn:N; [|simpl; tauto].
  simpl. rewrite on_outcome_calls.
  intros [<- | []]. exists data. auto.
Qed.

Lemma window_six (msgs : list MsgIn) :
  6 <= List.length msgs - 1 ->
  toGeminiHistory (slice msgs 0 (Some (-1)%Z)) 6 =
  map forwarded_turn
      (filter (fun m => nonblank (content m)) (six_before_final msgs)).
Proof.
  intros H. rewrite toGeminiHistory_eq, slice_init, length_firstn.
  unfold six_before_final. rewrite firstn_skipn_comm.
  replace (Nat.min (List.length msgs - 1) (List.length msgs) - 6)
    with (List.length msgs - 7) by lia.
  replace (List.length msgs - 7 + 6) with (List.length msgs - 1) by lia.
  reflexivity.
Qed.

Lemma filter_all {A : Type} (f : A -> bool) (l : list A) :
  Forall (fun x => f x = true) l -> filter f l = l.
Proof.
  induction 1 as [|x l Hx _ IH]; simpl; [reflexivity|].
  now rewrite Hx, IH.
Qed.

(** C2 (amended). For a validated request with more than six messages
    before the final one, the history sent to the provider is the two
    opening turns (the system prompt and its acknowledgement) followed by
    the turns of the six messages before the final one, in their order,
    without those whose content is whitespace-only; each turn has the role
    ["model"] for an assistant message and ["user"] otherwise, and the
    clamped content. When none of the six is whitespace-only, all six are
    forwarded. *)
Theorem forwarded_history provider (e : Env) (req_body : value) (data : Ask)
  (req : ProviderRequest) :
  safeParse AskSchema (coalesce req_body (JObject [])) = Success data ->
  6 < List.length (messages data) - 1 ->
  In req (calls (run provider (post e req_body))) ->
  history req =
    [turn (js "user")
       (buildSystemPrompt JSON_stringify (intent data) (profile data));
     turn (js "model") (js "Siap.")]
    ++ map forwarded_turn
         (filter (fun m => nonblank (content m))
                 (six_before_final (messages data)))
  /\ (Forall (fun m => ~ whitespace_only (content m))
             (six_before_final (messages data)) ->
      skipn 2 (history req) =
      map forwarded_turn (six_before_final (messages data))).
Proof.
  intros Hp Hlen Hin.
  destruct (post_request _ _ _ _ Hin) as (data' & Hp' & _ & ->).
  rewrite Hp in Hp'. injection Hp' as <-.
  unfold request_for. cbn [history].
  rewrite window_six by lia.
  split; [reflexivity|].
  intros Hall. cbn [skipn app]. rewrite filter_all; [reflexivity|].
  eapply Forall_impl; [|exact Hall]. cbv beta. intros m Hm.
  destruct (nonblank (content m)) eqn:N; [reflexivity|].
  now apply nonblank_false in N.
Qed.

(** ** The formatted validation error *)

Lemma find_update_same k f cs :
  find_child k (update_child k f cs) =
  Some (f (match find_child k cs with
           | Some c => c
           | None => empty_node
           end)).
Proof.
  induction cs as [|[k' c] cs IH]; simpl.
  - now rewrite str_eqb_refl.
  - destruct (str_eqb k k') eqn:E; simpl; rewrite E; auto.
Qed.

Lemma find_update_other k k' f cs :
  k' <> k -> find_child k' (update_child k f cs) = find_child k' cs.
Proof.
  intros Hne. induction cs as [|[k0 c] cs IH]; simpl.
  - destruct (str_eqb k' k) eqn:E; auto.
    apply str_eqb_spec in E. contradiction.
  - destruct (str_eqb k k0) eqn:E; simpl.
    + apply str_eqb_spec in E. subst k0.
      destruct (str_eqb k' k) eqn:E'; auto.
      apply str_eqb_spec in E'. contradiction.
    + now rewrite IH.
Qed.

Lemma add_issue_has p msg t : has_error p (add_issue p msg t).
Proof.
  revert t. induction p as [|k p IH]; intros [es cs]; simpl.
  - exists (es ++ [msg]), cs. split; auto. now destruct es.
  - unfold has_error. simpl. rewrite find_update_same. apply IH.
Qed.

Lemma add_issue_keeps p q msg t :
  has_error p t -> has_error p (add_issue q msg t).
Proof.
  revert p t. induction q as [|k q IH]; intros p [es cs] (es' & cs' & H & Hne).
  - destruct p as [|k' p]; simpl in *.
    + injection H as <- <-. exists (es ++ [msg]), cs. split; auto.
      now destruct es.
    + exists es', cs'. auto.
  - destruct p as [|k' p]; simpl in *.
    + injection H as <- <-.
      exists es, (update_child k (add_issue q msg) cs). split; auto.
    + destruct (list_eq_dec N.eq_dec k' k) as [->|Hk].
      * unfold has_error. simpl. rewrite find_update_same.
        destruct (find_child k cs) as [c|]; [|discriminate].
        apply IH. exists es', cs'. auto.
      * unfold has_error. simpl. rewrite find_update_other by auto.
        exists es', cs'. auto.
Qed.

Lemma fold_add_issue_has (step := fun acc i =>
    add_issue (map path_key (path i)) (errorMap i) acc)
  (l : list ZodIssue) (acc : ZodFormattedError) (p : list jsstring) :
  has_error p acc \/ (exists i, In i l /\ map path_key (path i) = p) ->
  has_error p (fold_left step l acc).
Proof.
  revert acc. induction l as [|j l IH]; intros acc; simpl.
  - intros [H | (i & [] & _)]; exact H.
  - intros [H | (i & [-> | Hin] & Hp)]; apply IH.
    + left. now apply add_issue_keeps.
    + left. subst p. apply add_issue_has.
    + right. eauto.
Qed.

(** Every issue of the error is reported: the formatted error has a
    message under the path of the issue. *)
Lemma format_has_error (error : ZodError) (p : list PathEl) :
  reported (issues error) p ->
  has_error (map path_key p) (format errorMap error).
Proof.
  intros (i & Hin & <-). apply fold_add_issue_has. right. eauto.
Qed.

Lemma toJSON_strings (es : list jsstring) :
  toJSON (JArray (map JString es)) = JArray (map JString es).
Proof.
  simpl. f_equal. induction es as [|x es IH]; simpl; [reflexivity|].
  now rewrite IH.
Qed.

(** The formatted error has no [undefined] in it: it is sent as it is. *)
Lemma toJSON_to_value : forall t, toJSON (to_value t) = to_value t.
Proof.
  fix IH 1. intros [es cs].
  change (to_value (FNode es cs)) with
    (JObject ((js "_errors", JArray (map JString es))
              :: (fix go (l : list (jsstring * ZodFormattedError)) :=
                    match l with
                    | [] => []
                    | (k, c) :: rest => (k, to_value c) :: go rest
                    end) cs)).
  cbn [toJSON]. do 2 f_equal.
  - f_equal. exact (toJSON_strings es).
  - induction cs as [|[k c] cs IHcs]; [reflexivity|].
    rewrite (IH c), IHcs. now destruct c.
Qed.

Lemma safeParse_failure {A : Type} (t : ZodType A) (v : value) :
  snd (t [] v) <> [] ->
  safeParse t v = Failure (mkError (snd (t [] v))).
Proof.
  unfold safeParse. destruct (t [] v) as [[a|] [|i l]]; simpl; congruence.
Qed.

(** ** Requests that violate the schema *)

Lemma reported_app_l l l' p : reported l p -> reported (l ++ l') p.
Proof. intros (i & H & E). exists i. rewrite in_app_iff. auto. Qed.

Lemma reported_app_r l l' p : reported l' p -> reported (l ++ l') p.
Proof. intros (i & H & E). exists i. rewrite in_app_iff. auto. Qed.

Lemma reported_here c p l : reported (mkIssue c p :: l) p.
Proof. exists (mkIssue c p). simpl. auto. Qed.

Lemma parse_items_cons {A : Type} (t : ZodType A) p i x rest :
  snd (parse_items t p i (x :: rest)) =
  snd (t (p ++ [Index i]) x) ++ snd (parse_items t p (S i) rest).
Proof. reflexivity. Qed.

Lemma MsgSchema_issues p props :
  snd (MsgSchema p (JObject props)) =
  snd (z_default (z_string None) (JString (js "user"))
         (p ++ [Key (js "role")]) (lookup (js "role") props))
  ++ snd (z_string (Some 1) (p ++ [Key (js "content")])
            (lookup (js "content") props)).
Proof. reflexivity. Qed.

Lemma empty_contents_reported (items : list value) (i : nat) (p : list PathEl) :
  In p (empty_contents i items) ->
  reported (snd (parse_items MsgSchema [Key (js "messages")] i items)) p.
Proof.
  revert i. induction items as [|x items IH]; intros i; [simpl; tauto|].
  rewrite parse_items_cons. cbn [empty_contents].
  rewrite in_app_iff. intros [H | H].
  - apply reported_app_l.
    destruct x as [| | | | | |props]; simpl in H; try tauto.
    rewrite MsgSchema_issues. apply reported_app_r.
    destruct (lookup (js "content") props) as [| | | |[|c s]| |];
      simpl in H; try tauto.
    destruct H as [<- | []]. apply reported_here.
  - apply reported_app_r. now apply IH.
Qed.

Lemma AskSchema_issues props :
  snd (AskSchema [] (JObject props)) =
  snd (z_array MsgSchema (Some 1) [Key (js "messages")]
         (lookup (js "messages") props))
  ++ snd (z_default (z_enum intents) (JString (js "news"))
            [Key (js "intent")] (lookup (js "intent") props))
  ++ snd (z_optional ProfileSchema [Key (js "profile")]
            (lookup (js "profile") props))
  ++ snd (z_optional (z_number [check_int; check_min 64; check_max 2048])
            [Key (js "maxOutputTokens")] (lookup (js "maxOutputTokens") props))
  ++ snd (z_optional (z_number [check_min 0; check_max 1])
            [Key (js "temperature")] (lookup (js "temperature") props)).
Proof.
  unfold AskSchema, z_object, field, get. cbn [ap OK fst snd].
  now rewrite app_nil_l, <- !app_assoc.
Qed.

Lemma messages_reported props p :
  In p (messages_violations (JObject props)) ->
  reported (snd (z_array MsgSchema (Some 1) [Key (js "messages")]
                   (lookup (js "messages") props))) p.
Proof.
  unfold messages_violations, get.
  destruct (lookup (js "messages") props) as [| | | | |[|x items]|];
    simpl In; try tauto.
  - intros [<- | []]. apply reported_here.
  - intros [<- | []]. apply reported_here.
  - intros H. unfold z_array. cbn [fst snd List.length Nat.ltb Nat.leb app].
    now apply empty_contents_reported.
Qed.

Lemma intent_reported props p :
  In p (intent_violations (JObject props)) ->
  reported (snd (z_default (z_enum intents) (JString (js "news"))
                   [Key (js "intent")] (lookup (js "intent") props))) p.
Proof.
  unfold intent_violations, get, z_default, z_enum, intents.
  destruct (lookup (js "intent") props) as [| | | |s| |]; simpl In; try tauto;
    try (intros [<- | []]; apply reported_here).
  cbn [existsb].
  destruct (str_eqb s (js "news") || _); intros H; [destruct H|].
  destruct H as [<- | []]. apply reported_here.
Qed.

(** Outside the inclusive range is below the minimum or above the
    maximum. *)
Lemma out_of_range lo hi n :
  n <> NaN -> in_range lo hi n = false ->
  num_lt n (of_Z lo) = true \/ num_lt (of_Z hi) n = true.
Proof.
  destruct n as [q| | |]; simpl; intros Hn H; auto; try congruence.
  unfold Qltb. apply andb_false_iff in H as [-> | ->]; auto.
Qed.

Lemma maxOutputTokens_reported props p :
  In p (maxOutputTokens_violations (JObject props)) ->
  reported (snd (z_optional (z_number [check_int; check_min 64; check_max 2048])
                   [Key (js "maxOutputTokens")]
                   (lookup (js "maxOutputTokens") props))) p.
Proof.
  unfold maxOutputTokens_violations, get, z_optional.
  destruct (lookup (js "maxOutputTokens") props) as [| | |n| | |];
    simpl In; try tauto;
    try (intros [<- | []]; apply reported_here).
  destruct (isInteger n && in_range 64 2048 n) eqn:E; simpl In; [tauto|].
  intros [<- | []].
  assert (N : n = NaN \/ n <> NaN) by (destruct n; auto; right; discriminate).
  destruct N as [-> | N]; [apply reported_here|].
  replace (snd (option_map Some (fst _), snd _))
    with (flat_map (run_check [Key (js "maxOutputTokens")] n)
            [check_int; check_min 64; check_max 2048])
    by (destruct n; [reflexivity..|contradiction]).
  cbn [flat_map run_check].
  apply andb_false_iff in E as [E | E].
  - rewrite E. apply reported_here.
  - apply reported_app_r.
    destruct (out_of_range _ _ _ N E) as [-> | ->].
    + apply reported_here.
    + apply reported_app_r. apply reported_here.
Qed.

Lemma temperature_reported props p :
  In p (temperature_violations (JObject props)) ->
  reported (snd (z_optional (z_number [check_min 0; check_max 1])
                   [Key (js "temperature")]
                   (lookup (js "temperature") props))) p.
Proof.
  unfold temperature_violations, get, z_optional.
  destruct (lookup (js "temperature") props) as [| | |n| | |];
    simpl In; try tauto;
    try (intros [<- | []]; apply reported_here).
  destruct (in_range 0 1 n) eqn:E; simpl In; [tauto|].
  intros [<- | []].
  assert (N : n = NaN \/ n <> NaN) by (destruct n; auto; right; discriminate).
  destruct N as [-> | N]; [apply reported_here|].
  replace (snd (option_map Some (fst _), snd _))
    with (flat_map (run_check [Key (js "temperature")] n)
            [check_min 0; check_max 1])
    by (destruct n; [reflexivity..|contradiction]).
  cbn [flat_map run_check].
  destruct (out_of_range _ _ _ N E) as [-> | ->].
  - apply reported_here.
  - apply reported_app_r. apply reported_here.
Qed.

(** Every violated field has an issue in the outcome of the schema. *)
Lemma violations_reported (req_body : value) (p : list PathEl) :
  In p (violated_fields req_body) ->
  reported (snd (AskSchema [] (coalesce req_body (JObject [])))) p.
Proof.
  destruct req_body as [| |b|n|s|items|props]; simpl In;
    try (intros [<- | []]; apply reported_here).
  unfold violated_fields, coalesce. rewrite AskSchema_issues, !in_app_iff.
  intros [H | [H | [H | H]]].
  - now apply reported_app_l, messages_reported.
  - now apply reported_app_r, reported_app_l, intent_reported.
  - now apply reported_app_r, reported_app_r, reported_app_r, reported_app_l,
      maxOutputTokens_reported.
  - now apply reported_app_r, reported_app_r, reported_app_r, reported_app_r,
      temperature_reported.
Qed.

Lemma to_value_node es cs :
  to_value (FNode es cs) =
  JObject ((js "_errors", JArray (map JString es)) :: children_props cs).
Proof.
  simpl. do 2 f_equal.
  induction cs as [|[k c] cs IH]; simpl; [reflexivity|]. now rewrite IH.
Qed.

Lemma lookup_children k cs :
  lookup k (children_props cs) =
  match find_child k cs with
  | Some c => to_value c
  | None => JUndefined
  end.
Proof.
  induction cs as [|[k' c] cs IH]; simpl; [reflexivity|].
  destruct (str_eqb k k'); auto.
Qed.

Lemma json_at_node p t n :
  Forall (fun k => k <> js "_errors") p ->
  node_at p t = Some n ->
  json_at p (to_value t) = to_value n.
Proof.
  intros Hp. revert t.
  induction Hp as [|k p Hk _ IH]; intros [es cs]; cbn [json_at node_at map].
  - now intros [= <-].
  - intros H. rewrite to_value_node.
    cbn [get lookup].
    destruct (str_eqb k (js "_errors")) eqn:E.
    { apply str_eqb_spec in E. contradiction. }
    rewrite lookup_children.
    destruct (find_child k cs) as [c|]; [|discriminate]. now apply IH.
Qed.

Lemma has_error_described p t :
  Forall (fun el => path_key el <> js "_errors") p ->
  has_error (map path_key p) t ->
  described (to_value t) p.
Proof.
  intros Hp (es & cs & H & Hne). unfold described.
  assert (Hk : Forall (fun k => k <> js "_errors") (map path_key p))
    by (apply Forall_map; exact Hp).
  rewrite (json_at_node _ _ _ Hk H), to_value_node.
  destruct es as [|m ms]; [contradiction|].
  exists m, (map JString ms). reflexivity.
Qed.

Lemma index_key_not_errors i : index_key i <> js "_errors".
Proof.
  unfold index_key, NilZero.string_of_uint.
  destruct (Nat.to_uint i); discriminate.
Qed.

Lemma empty_contents_shape (items : list value) (i : nat) (p : list PathEl) :
  In p (empty_contents i items) ->
  exists j, p = [Key (js "messages"); Index j; Key (js "content")].
Proof.
  revert i. induction items as [|x items IH]; intros i; simpl; [tauto|].
  rewrite in_app_iff. intros [H | H]; [|now apply (IH (S i))].
  destruct (get x (js "content")) as [| | | |[|c s]| |]; simpl in H; try tauto.
  destruct H as [<- | []]. now exists i.
Qed.

(** No violated field is called [_errors]. *)
Lemma violated_fields_keys (req_body : value) (p : list PathEl) :
  In p (violated_fields req_body) ->
  Forall (fun el => path_key el <> js "_errors") p.
Proof.
  assert (K : forall k, js k <> js "_errors" ->
                        Forall (fun el => path_key el <> js "_errors")
                               [Key (js k)])
    by (intros k Hk; repeat constructor; exact Hk).
  destruct req_body as [| |b|n|s|items|props].
  1-6: simpl; intros [<- | []]; first [apply K; discriminate | constructor].
  unfold violated_fields. rewrite !in_app_iff.
  intros [H | [H | [H | H]]].
  - unfold messages_violations in H.
    destruct (get (JObject props) (js "messages")) as [| | | | |[|x items]|];
      simpl in H; try tauto;
      try (destruct H as [<- | []]; apply K; discriminate).
    destruct (empty_contents_shape (x :: items) 0 p H) as [j ->].
    repeat constructor; try discriminate. apply index_key_not_errors.
  - unfold intent_violations in H.
    destruct (get (JObject props) (js "intent")) as [| | | |s| |];
      try destruct (existsb _ _); simpl in H; try tauto;
      destruct H as [<- | []]; apply K; discriminate.
  - unfold maxOutputTokens_violations in H.
    destruct (get (JObject props) (js "maxOutputTokens")) as [| | |n| | |];
      try destruct (_ && _); simpl in H; try tauto;
      destruct H as [<- | []]; apply K; discriminate.
  - unfold temperature_violations in H.
    destruct (get (JObject props) (js "temperature")) as [| | |n| | |];
      try destruct (in_range _ _ _); simpl in H; try tauto;
      destruct H as [<- | []]; apply K; discriminate.
Qed.

(** C1 (amended). When a credential is configured, a request body that
    violates the schema in one of the listed ways is answered with 400
    and [BAD_REQUEST]; the [details] are the formatted validation error,
    which describes every violated field; the provider is not called. *)
Theorem invalid_request_400 provider (e : Env) (req_body : value) :
  has_credential e = true ->
  violated_fields req_body <> [] ->
  exists error,
    safeParse AskSchema (coalesce req_body (JObject [])) = Failure error
    /\ run provider (post e req_body) =
       mkRun (mkResponse 400
                (JObject [(js "error", JString (js "BAD_REQUEST"));
                          (js "details", to_value (format errorMap error))]))
             [] []
    /\ Forall (described (to_value (format errorMap error)))
              (violated_fields req_body).
Proof.
  intros Hk Hv.
  set (o := coalesce req_body (JObject [])).
  assert (R : forall p, In p (violated_fields req_body) ->
                        reported (snd (AskSchema [] o)) p)
    by (intros p; apply violations_reported).
  assert (F : safeParse AskSchema o = Failure (mkError (snd (AskSchema [] o)))).
  { apply safeParse_failure.
    destruct (violated_fields req_body) as [|p l]; [contradiction|].
    destruct (R p (or_introl eq_refl)) as (i & Hi & _).
    intros E. rewrite E in Hi. exact Hi. }
  exists (mkError (snd (AskSchema [] o))). split; [exact F|]. split.
  - rewrite (post_configured _ _ Hk). fold o. rewrite F.
    unfold res_json. cbn [run].
    change (toJSON (JObject [(js "error", JString (js "BAD_REQUEST"));
                             (js "details", ?d)]))
      with (JObject ((js "error", JString (js "BAD_REQUEST")) ::
                     match toJSON d with
                     | JUndefined => []
                     | y => [(js "details", y)]
                     end)).
    rewrite toJSON_to_value.
    now destruct (format errorMap (mkError (snd (AskSchema [] o)))).
  - apply Forall_forall. intros p Hp.
    apply has_error_described; [now apply (violated_fields_keys req_body)|].
    apply format_has_error. exact (R p Hp).
Qed.

End Handler.

(* ================================================================== *)
(** * Concrete runs *)
(* ================================================================== *)

Lemma hello_called provider :
  In (request_for stub_stringify env_with_key hello_data)
     (calls (run_hello provider)).
Proof. left. reflexivity. Qed.

Lemma clampText_4000_witness :
  clampText (js "hello") 4000 = js "hello"
  /\ List.length (clampText (repeat 97%N 4001) 4000) = 4000.
Proof.
  split.
  - apply (proj1 (clampText_4000 (js "hello"))). simpl. lia.
  - apply (proj2 (clampText_4000 (repeat 97%N 4001))).
    rewrite repeat_length. lia.
Defined.

Lemma missing_credential_503_witness :
  status (response (run (replying "hi")
                      (post stub_errorMap stub_stringify env_without_key
                         hello_request))) = 503.
Proof.
  rewrite (missing_credential_503 stub_errorMap stub_stringify
             (replying "hi") env_without_key hello_request); reflexivity.
Defined.

Lemma blank_turn_greeting_witness :
  run (replying "hi")
      (post stub_errorMap stub_stringify env_with_key
         (object [("messages", JArray [message "user" "  "])]%string)) =
  mkRun (mkResponse 200 (JObject [(js "answer", JString greeting)])) [] [].
Proof.
  apply (blank_turn_greeting stub_errorMap stub_stringify (replying "hi")
           env_with_key _
           (mkAsk [msg "user" "  "] (js "news") None None None)
           (msg "user" "  ")).
  - split; reflexivity.
  - reflexivity.
  - repeat constructor.
Defined.

Lemma empty_reply_502_witness :
  status (response (run_hello (replying "  "))) = 502.
Proof.
  unfold run_hello.
  rewrite (empty_reply_502 stub_errorMap stub_stringify (replying "  ")
             env_with_key hello_request
             (request_for stub_stringify env_with_key hello_data)
             (Some (js "  "))).
  - reflexivity.
  - apply hello_called.
  - reflexivity.
  - intros s E. injection E as <-. reflexivity.
Defined.

(** The round trip of the design: the minimal request, the provider
    replying ["hi there"]. *)
Lemma text_reply_200_witness :
  response (run_hello (replying "hi there")) =
  mkResponse 200 (JObject [(js "answer", JString (js "hi there"))]).
Proof.
  unfold run_hello.
  rewrite (text_reply_200 stub_errorMap stub_stringify (replying "hi there")
             env_with_key hello_request
             (request_for stub_stringify env_with_key hello_data)
             (js "hi there")).
  - reflexivity.
  - apply hello_called.
  - reflexivity.
  - discriminate.
Defined.

(** C7, as stated, fails: a reply of one space is a non-empty text, and the
    answer to it is 502 [EMPTY_RESPONSE], not 200. *)
Lemma whitespace_reply_not_200 :
  js " " <> []
  /\ calls (run_hello (replying " ")) =
     [request_for stub_stringify env_with_key hello_data]
  /\ response (run_hello (replying " ")) =
     mkResponse 502
       (JObject [(js "error", JString (js "EMPTY_RESPONSE"));
                 (js "message", JString (js "AI tidak mengembalikan teks."))])
  /\ status (response (run_hello (replying " "))) <> 200.
Proof.
  split; [discriminate|]. split; [reflexivity|]. split; [reflexivity|].
  discriminate.
Qed.

Lemma provider_exception_502_witness :
  response (run_hello (throwing unavailable)) =
  mkResponse 502
    (object [("error", JString (js "AI_ERROR"));
             ("code", JNumber (of_Z 503));
             ("message", JString (js "Service Unavailable"))]%string)
  /\ incl (keys (body (response (run_hello (throwing unavailable)))))
          [js "error"; js "code"; js "message"].
Proof.
  split; [reflexivity|].
  apply (provider_exception_502 stub_errorMap stub_stringify
           (throwing unavailable) env_with_key hello_request
           (request_for stub_stringify env_with_key hello_data) unavailable).
  - apply hello_called.
  - reflexivity.
Defined.

(** C8, as stated, fails: the exception has a [code] (the number 0), and
    the [code] of the answer is its [status] all the same. *)
Lemma falsy_code_gives_status :
  get zero_code (js "code") = JNumber (of_Z 0)
  /\ get zero_code (js "code") <> JUndefined
  /\ response (run_hello (throwing zero_code)) =
     mkResponse 502
       (object [("error", JString (js "AI_ERROR"));
                ("code", JNumber (of_Z 429));
                ("message", JString (js "quota"))]%string)
  /\ get (body (response (run_hello (throwing zero_code)))) (js "code")
     <> get zero_code (js "code").
Proof.
  split; [reflexivity|]. split; [discriminate|]. split; [reflexivity|].
  discriminate.
Qed.

Lemma whitespace_content_accepted_witness :
  safeParse AskSchema (single_message (js " ")) =
    Success (mkAsk [mkMsgIn (js "user") (js " ")] (js "news") None None None)
  /\ run (replying "hi")
         (post stub_errorMap stub_stringify env_with_key
            (single_message (js " "))) =
     mkRun (mkResponse 200 (JObject [(js "answer", JString greeting)])) [] [].
Proof.
  destruct (whitespace_content_accepted stub_errorMap stub_stringify
              (replying "hi") env_with_key (js " ")) as (P & R & _).
  - discriminate.
  - repeat constructor.
  - split; [exact P | apply R; reflexivity].
Defined.

Lemma forwarded_history_witness :
  skipn 2 (history (request_for stub_stringify env_with_key (talk_data "q3"))) =
  [turn (js "model") (js "a1"); turn (js "user") (js "q2");
   turn (js "model") (js "a2"); turn (js "user") (js "q3");
   turn (js "model") (js "a3"); turn (js "user") (js "q4")].
Proof.
  destruct (forwarded_history stub_errorMap stub_stringify (replying "ok")
              env_with_key (talk_request "q3") (talk_data "q3")
              (request_for stub_stringify env_with_key (talk_data "q3")))
    as [_ H].
  - reflexivity.
  - simpl. lia.
  - left. reflexivity.
  - rewrite H; [reflexivity|].
    repeat constructor; intros W; inversion W; discriminate.
Defined.

(** C2, as stated, fails: the request is valid and has seven messages
    before the final one, and the history window sent to the provider has
    five turns, not the turns of the six messages before the final one. *)
Lemma whitespace_message_not_forwarded :
  safeParse AskSchema (talk_request " ") = Success (talk_data " ")
  /\ List.length (messages (talk_data " ")) - 1 = 7
  /\ map (fun req => skipn 2 (history req)) (calls (run_talk " ")) =
     [[turn (js "model") (js "a1"); turn (js "user") (js "q2");
       turn (js "model") (js "a2");
       turn (js "model") (js "a3"); turn (js "user") (js "q4")]]
  /\ map (fun req => skipn 2 (history req)) (calls (run_talk " ")) <>
     [map forwarded_turn (six_before_final (messages (talk_data " ")))].
Proof.
  split; [reflexivity|]. split; [reflexivity|]. split; [reflexivity|].
  discriminate.
Qed.

Lemma invalid_request_400_witness :
  violated_fields bad_request =
    [[Key (js "messages"); Index 0; Key (js "content")];
     [Key (js "intent")]; [Key (js "maxOutputTokens")];
     [Key (js "temperature")]]
  /\ exists error,
       safeParse AskSchema (coalesce bad_request (JObject [])) = Failure error
       /\ run (replying "hi")
              (post stub_errorMap stub_stringify env_with_key bad_request) =
          mkRun (mkResponse 400
                   (JObject [(js "error", JString (js "BAD_REQUEST"));
                             (js "details",
                              to_value (format stub_errorMap error))]))
                [] []
       /\ Forall (described (to_value (format stub_errorMap error)))
                 (violated_fields bad_request).
Proof.
  split; [reflexivity|].
  apply (invalid_request_400 stub_errorMap stub_stringify (replying "hi")
           env_with_key bad_request).
  - reflexivity.
  - discriminate.
Defined.

(** C1, as stated, fails: the body has no [messages], and without a
    credential the answer is 503 [GEMINI_API_KEY_MISSING], not 400. *)
Lemma invalid_request_without_credential :
  violated_fields (JObject []) = [[Key (js "messages")]]
  /\ response (run (replying "hi")
                 (post stub_errorMap stub_stringify env_without_key
                    (JObject []))) =
     mkResponse 503
       (JObject [(js "error", JString (js "GEMINI_API_KEY_MISSING"));
                 (js "message",
                  JString (js "Server AI belum dikonfigurasi. Hubungi admin."))])
  /\ status (response (run (replying "hi")
                         (post stub_errorMap stub_stringify env_without_key
                            (JObject [])))) <> 400.
Proof.
  split; [reflexivity|]. split; [reflexivity|]. discriminate.
Qed.

(* ================================================================== *)
(** * Further properties of the route *)
(* ================================================================== *)

(** ** More on [trim] *)

Lemma trimStart_app_nonws (a b : jsstring) (c : char16) :
  is_whitespace c = false ->
  trimStart (a ++ c :: b) = trimStart a ++ c :: b.
Proof.
  intros Hc. induction a as [|x a IH]; simpl.
  - now rewrite Hc.
  - destruct (is_whitespace x); auto.
Qed.

Lemma trimEnd_app_nonws (a b : jsstring) (c : char16) :
  is_whitespace c = false ->
  trimEnd (a ++ c :: b) = a ++ c :: trimEnd b.
Proof.
  intros Hc. unfold trimEnd.
  rewrite rev_app_distr. simpl. rewrite <- app_assoc. simpl.
  rewrite trimStart_app_nonws by exact Hc.
  rewrite rev_app_distr. simpl. rewrite rev_involutive, <- app_assoc.
  reflexivity.
Qed.

Lemma trimStart_incl (s : jsstring) (c : char16) :
  In c (trimStart s) -> In c s.
Proof.
  induction s as [|x s IH]; simpl; auto.
  destruct (is_whitespace x); simpl; auto.
Qed.

Lemma trim_incl (s : jsstring) (c : char16) : In c (trim s) -> In c s.
Proof.
  unfold trim, trimEnd. intros H. apply in_rev in H.
  apply trimStart_incl in H. apply in_rev in H.
  now apply trimStart_incl.
Qed.

Lemma trimStart_idem (s : jsstring) : trimStart (trimStart s) = trimStart s.
Proof.
  destruct (trimStart_head s) as [-> | (c & r & -> & Hc)]; [reflexivity|].
  simpl. now rewrite Hc.
Qed.

Lemma trim_idem (s : jsstring) : trim (trim s) = trim s.
Proof.
  unfold trim.
  destruct (trimStart_head s) as [-> | (c & r & -> & Hc)]; [reflexivity|].
  change (c :: r) with ([] ++ c :: r).
  rewrite trimEnd_app_nonws by exact Hc. cbn [app trimStart]. rewrite Hc.
  change (c :: trimEnd r) with ([] ++ c :: trimEnd r).
  rewrite trimEnd_app_nonws by exact Hc. cbn [app]. f_equal.
  unfold trimEnd. now rewrite rev_involutive, trimStart_idem.
Qed.

(** ** What validation guarantees *)

Lemma ap_ok {A B : Type} (f : ParseReturn (A -> B)) (x : ParseReturn A) (b : B) :
  f <*> x = (Some b, []) ->
  exists g a, f = (Some g, []) /\ x = (Some a, []) /\ b = g a.
Proof.
  destruct f as [[g|] fi], x as [[a|] xi]; unfold ap; simpl;
    intros H; try discriminate.
  injection H as <- H. apply app_eq_nil in H as [-> ->]. eauto.
Qed.

Lemma z_object_ok {A : Type} (shape : list PathEl -> value -> ParseReturn A)
  p v (a : A) :
  z_object shape p v = (Some a, []) ->
  (exists props, v = JObject props) /\ shape p v = (Some a, []).
Proof.
  destruct v; simpl; try discriminate. eauto.
Qed.

Lemma MsgSchema_ok p v m :
  MsgSchema p v = (Some m, []) -> content m <> [].
Proof.
  intros H. apply z_object_ok in H as [_ H].
  apply ap_ok in H as (g & c & H & Hc & ->).
  apply ap_ok in H as (g' & r & H & _ & ->).
  injection H as <-. simpl.
  unfold field, z_string in Hc.
  destruct (get v (js "content")) as [| | | |[|x s]| |]; try discriminate.
  injection Hc as <-. discriminate.
Qed.

Lemma parse_items_ok p i items ms :
  parse_items MsgSchema p i items = (Some ms, []) ->
  List.length ms = List.length items /\ Forall (fun m => content m <> []) ms.
Proof.
  revert i ms. induction items as [|x items IH]; intros i ms; simpl.
  - intros [= <-]. auto.
  - intros H. apply ap_ok in H as (g & rest & H & Hr & ->).
    apply ap_ok in H as (g' & m & H & Hm & ->).
    injection H as <-. apply IH in Hr as [L F]. apply MsgSchema_ok in Hm.
    simpl. split; [now rewrite L | now constructor].
Qed.

Lemma messages_ok p v ms :
  z_array MsgSchema (Some 1) p v = (Some ms, []) ->
  ms <> [] /\ Forall (fun m => content m <> []) ms.
Proof.
  unfold z_array. destruct v as [| | | | |items|]; try discriminate.
  destruct items as [|x items]; [discriminate|].
  cbn [List.length Nat.ltb Nat.leb app].
  destruct (parse_items MsgSchema p 0 (x :: items)) as [o l] eqn:E.
  simpl. intros [= -> ->]. apply parse_items_ok in E as [L F].
  split; auto. intros ->. discriminate.
Qed.

Lemma intent_ok p v i :
  z_default (z_enum intents) (JString (js "news")) p v = (Some i, []) ->
  In i [js "news"; js "jobs"; js "consult"].
Proof.
  assert (E : forall s, z_enum intents p (JString s) = (Some i, []) ->
                        In i [js "news"; js "jobs"; js "consult"]).
  { intros s. unfold z_enum.
    destruct (existsb (str_eqb s) intents) eqn:X; [|discriminate].
    intros [= <-]. apply existsb_exists in X as (k & Hk & Hs).
    apply str_eqb_spec in Hs. now subst. }
  unfold z_default. destruct v; try discriminate; try apply E.
Qed.

Lemma within_range lo hi n :
  n <> NaN -> num_lt n (of_Z lo) = false -> num_lt (of_Z hi) n = false ->
  in_range lo hi n = true.
Proof.
  destruct n as [q| | |]; simpl; try congruence.
  unfold Qltb. intros _ A B.
  apply negb_false_iff in A, B. now rewrite A, B.
Qed.

Lemma number_ok checks p v (n : option number) :
  z_optional (z_number checks) p v = (Some n, []) ->
  forall x, n = Some x ->
            x <> NaN /\ forall c, In c checks -> run_check p x c = [].
Proof.
  assert (F : forall x, flat_map (run_check p x) checks = [] ->
                        forall c, In c checks -> run_check p x c = []).
  { intros x H c Hc. induction checks as [|c' cs IH]; simpl in *; [tauto|].
    apply app_eq_nil in H as [H1 H2]. destruct Hc as [-> | Hc]; auto. }
  unfold z_optional, z_number.
  destruct v as [| | |[q| | |]| | |]; simpl; try discriminate.
  - intros [= <-] x. discriminate.
  - intros [= <- H] x [= <-]. split; [discriminate | now apply F].
  - intros [= <- H] x [= <-]. split; [discriminate | now apply F].
  - intros [= <- H] x [= <-]. split; [discriminate | now apply F].
Qed.

Lemma ProfileSchema_ok p v prof :
  ProfileSchema p v = (Some prof, []) -> experienceYears prof <> Some NaN.
Proof.
  intros H. apply z_object_ok in H as [_ H].
  apply ap_ok in H as (g6 & x6 & H & _ & ->).
  apply ap_ok in H as (g5 & x5 & H & H5 & ->).
  apply ap_ok in H as (g4 & x4 & H & _ & ->).
  apply ap_ok in H as (g3 & x3 & H & _ & ->).
  apply ap_ok in H as (g2 & x2 & H & _ & ->).
  apply ap_ok in H as (g1 & x1 & H & _ & ->).
  injection H as <-. simpl. intros ->.
  destruct (number_ok _ _ _ _ H5 NaN eq_refl) as [N _]. now apply N.
Qed.

Lemma profile_ok p v pr :
  z_optional ProfileSchema p v = (Some pr, []) ->
  forall prof, pr = Some prof -> experienceYears prof <> Some NaN.
Proof.
  unfold z_optional. intros H prof ->.
  destruct (ProfileSchema p v) as [[x|] l] eqn:E;
    destruct v; simpl in H; try discriminate;
    injection H as -> ->; now apply ProfileSchema_ok in E.
Qed.

Lemma success_well_formed (v : value) (data : Ask) :
  safeParse AskSchema v = Success data -> well_formed data.
Proof.
  unfold safeParse. destruct (AskSchema [] v) as [[a|] [|i l]] eqn:E;
    try discriminate.
  intros [= ->].
  apply z_object_ok in E as [_ E].
  apply ap_ok in E as (g5 & t & E & Ht & ->).
  apply ap_ok in E as (g4 & mo & E & Hmo & ->).
  apply ap_ok in E as (g3 & pr & E & Hpr & ->).
  apply ap_ok in E as (g2 & it & E & Hit & ->).
  apply ap_ok in E as (g1 & ms & E & Hms & ->).
  injection E as <-. unfold well_formed. simpl.
  apply messages_ok in Hms as [M1 M2]. apply intent_ok in Hit.
  pose proof (number_ok _ _ _ _ Hmo) as Nmo.
  pose proof (number_ok _ _ _ _ Ht) as Nt.
  repeat split; auto.
  - destruct (Nmo n H) as [_ C].
    pose proof (C check_int (or_introl eq_refl)) as I. cbn [run_check] in I.
    destruct (isInteger n); [reflexivity | discriminate].
  - destruct (Nmo n H) as [N C].
    apply within_range; auto.
    + pose proof (C (check_min 64) (or_intror (or_introl eq_refl))) as I.
      cbn [run_check] in I.
      destruct (num_lt n (of_Z 64)); [discriminate | reflexivity].
    + pose proof (C (check_max 2048)
                    (or_intror (or_intror (or_introl eq_refl)))) as I.
      cbn [run_check] in I.
      destruct (num_lt (of_Z 2048) n); [discriminate | reflexivity].
  - intros x Hx. destruct (Nt x Hx) as [N C].
    apply within_range; auto.
    + pose proof (C (check_min 0) (or_introl eq_refl)) as I.
      cbn [run_check] in I.
      destruct (num_lt x (of_Z 0)); [discriminate | reflexivity].
    + pose proof (C (check_max 1) (or_intror (or_introl eq_refl))) as I.
      cbn [run_check] in I.
      destruct (num_lt (of_Z 1) x); [discriminate | reflexivity].
  - intros prof Hp. exact (profile_ok _ _ _ Hpr prof Hp).
Qed.

(** X1. Data that [AskSchema] accepts is well formed: it has at least one
    message, no message has an empty content, the intent is one of the
    three, the generation parameters, when given, are within their
    bounds, and the years of experience are not NaN. *)
Theorem validated_data_well_formed (v : value) (data : Ask) :
  safeParse AskSchema v = Success data -> well_formed data.
Proof. apply success_well_formed. Qed.

(** ** The runs of the handler *)

Section Runs.
Variable errorMap : ZodIssue -> jsstring.
Variable JSON_stringify : Profile -> jsstring.

Local Abbreviation post := (Chat.post errorMap JSON_stringify).
Local Abbreviation sent := (request_for JSON_stringify).

Lemma credential_cases (e : Env) :
  (has_credential e = false /\ GEMINI_API_KEY e = [])
  \/ (has_credential e = true /\ GEMINI_API_KEY e <> []).
Proof.
  unfold has_credential, GEMINI_API_KEY, str_or.
  destruct (env_GEMINI_API_KEY e) as [[|c s]|]; auto.
  right. split; [reflexivity | discriminate].
Qed.

Lemma ai_error_body (err : value) :
  let r := res_json 502
             (JObject [(js "error", JString (js "AI_ERROR"));
                       (js "code",
                        or (get err (js "code")) (get err (js "status")));
                       (js "message",
                        or (get err (js "message"))
                           (JString (js "Gagal meminta jawaban dari AI.")))]) in
  status r = 502 /\ get (body r) (js "error") = JString (js "AI_ERROR").
Proof.
  split; [reflexivity|]. reflexivity.
Qed.

(** The six ways a run of the handler goes. *)
Lemma run_post_cases provider (e : Env) (req_body : value) :
  let r := run provider (post e req_body) in
  (has_credential e = false
   /\ r = mkRun (res_json 503
                   (JObject [(js "error", JString (js "GEMINI_API_KEY_MISSING"));
                             (js "message",
                              JString (js "Server AI belum dikonfigurasi. Hubungi admin."))]))
                [] [])
  \/ (has_credential e = true
      /\ exists error,
           safeParse AskSchema (coalesce req_body (JObject [])) = Failure error
           /\ r = mkRun (res_json 400
                           (JObject [(js "error", JString (js "BAD_REQUEST"));
                                     (js "details",
                                      to_value (format errorMap error))]))
                        [] [])
  \/ (exists data,
        validated e req_body data
        /\ nonblank (last_content (messages data)) = false
        /\ r = mkRun (res_json 200 (JObject [(js "answer", JString greeting)]))
                     [] [])
  \/ (exists data t,
        validated e req_body data
        /\ nonblank (last_content (messages data)) = true
        /\ provider (sent e data) = Resolves t
        /\ nonblank (str_or t (js "")) = false
        /\ r = mkRun (res_json 502
                        (JObject [(js "error", JString (js "EMPTY_RESPONSE"));
                                  (js "message",
                                   JString (js "AI tidak mengembalikan teks."))]))
                     [sent e data] [])
  \/ (exists data t,
        validated e req_body data
        /\ nonblank (last_content (messages data)) = true
        /\ provider (sent e data) = Resolves t
        /\ nonblank (str_or t (js "")) = true
        /\ r = mkRun (res_json 200
                        (JObject [(js "answer",
                                   JString (trim (str_or t (js ""))))]))
                     [sent e data] [])
  \/ (exists data err,
        validated e req_body data
        /\ nonblank (last_content (messages data)) = true
        /\ provider (sent e data) = Throws err
        /\ r = mkRun (res_json 502
                        (JObject [(js "error", JString (js "AI_ERROR"));
                                  (js "code",
                                   or (get err (js "code"))
                                      (get err (js "status")));
                                  (js "message",
                                   or (get err (js "message"))
                                      (JString (js "Gagal meminta jawaban dari AI.")))]))
                     [sent e data]
                     [[JString (js "[ArkWork Agent] Gemini error:");
                       JObject [(js "message", or (get err (js "message")) err);
                                (js "code", get err (js "code"));
                                (js "status", get err (js "status"));
                                (js "name", get err (js "name"))]]]).
Proof.
  intros r. subst r. unfold Chat.post.
  destruct (credential_cases e) as [[Hc K] | [Hc K]].
  { left. rewrite K. auto. }
  right. destruct (GEMINI_API_KEY e) as [|k0 ks] eqn:EK; [contradiction|].
  clear K.
  destruct (safeParse AskSchema (coalesce req_body (JObject []))) as [data|error] eqn:P.
  2: { left. split; auto. exists error. auto. }
  right. unfold Chat.answer.
  fold (sent e data).
  destruct (nonblank (last_content (messages data))) eqn:N; cbn [negb].
  2: { left. exists data. repeat split; auto. }
  right. cbn [run].
  destruct (provider (sent e data)) as [t|err] eqn:O; cbn [on_outcome].
  - destruct (nonblank (str_or t (js ""))) eqn:T; cbn [negb run].
    + right. left. exists data, t. repeat split; auto.
    + left. exists data, t. repeat split; auto.
  - right. right. exists data, err. repeat split; auto.
Qed.

Lemma validated_unique (e : Env) (req_body : value) (d d' : Ask) :
  validated e req_body d -> validated e req_body d' -> d = d'.
Proof. intros [_ H] [_ H']. congruence. Qed.

Lemma called_with provider (e : Env) (req_body : value) (req : ProviderRequest) :
  In req (calls (run provider (post e req_body))) ->
  exists data,
    validated e req_body data
    /\ nonblank (last_content (messages data)) = true
    /\ req = sent e data.
Proof.
  destruct (run_post_cases provider e req_body)
    as [[Hc R] | [[Hc (er & P & R)] | [(d & V & N & R)
       | [(d & t & V & N & O & T & R) | [(d & t & V & N & O & T & R)
       | (d & err & V & N & O & R)]]]]];
    cbv zeta in R; rewrite R; cbn [calls In]; try tauto;
    intros [<- | []]; exists d; auto.
Qed.

(** X5. The provider is called exactly once for a validated request with a
    non-blank final message, with the request built from it, and not at
    all otherwise, whatever the provider answers: there is no retry. *)
Theorem provider_called_once_or_never provider (e : Env) (req_body : value) :
  let r := run provider (post e req_body) in
  List.length (calls r) <= 1
  /\ (forall data,
        validated e req_body data ->
        nonblank (last_content (messages data)) = true ->
        calls r = [sent e data])
  /\ (calls r <> [] ->
      exists data,
        validated e req_body data
        /\ nonblank (last_content (messages data)) = true).
Proof.
  intros r.
  destruct (run_post_cases provider e req_body)
    as [[Hc R] | [[Hc (er & P & R)] | [(d & V & N & R)
       | [(d & t & V & N & O & T & R) | [(d & t & V & N & O & T & R)
       | (d & err & V & N & O & R)]]]]];
    fold r in R; rewrite R; cbn [calls List.length];
    (split; [lia|]); split;
    try (intros data V' N');
    try (intros C; try (exfalso; apply C; reflexivity));
    try (now rewrite (validated_unique _ _ _ _ V' V));
    try (rewrite (validated_unique _ _ _ _ V' V) in N'; congruence);
    try (exists d; auto).
  - destruct V' as [Hc' _]. congruence.
  - destruct V' as [_ P']. congruence.
Qed.

(** X6. Every response is of one of five kinds: 200 with nothing but an
    [answer] that is not empty and has no white space around it; 400 [BAD_REQUEST] with [details] and no [message];
    502 [EMPTY_RESPONSE]; 502 [AI_ERROR]; 503 [GEMINI_API_KEY_MISSING]. *)
Theorem response_kinds provider (e : Env) (req_body : value) :
  let r := response (run provider (post e req_body)) in
  (status r = 200
   /\ exists a, a <> [] /\ trim a = a
                /\ body r = JObject [(js "answer", JString a)])
  \/ (status r = 400
      /\ get (body r) (js "error") = JString (js "BAD_REQUEST")
      /\ get (body r) (js "details") <> JUndefined
      /\ get (body r) (js "message") = JUndefined)
  \/ (status r = 502
      /\ body r =
         JObject [(js "error", JString (js "EMPTY_RESPONSE"));
                  (js "message", JString (js "AI tidak mengembalikan teks."))])
  \/ (status r = 502
      /\ get (body r) (js "error") = JString (js "AI_ERROR")
      /\ get (body r) (js "message") <> JUndefined)
  \/ (status r = 503
      /\ body r =
         JObject [(js "error", JString (js "GEMINI_API_KEY_MISSING"));
                  (js "message",
                   JString (js "Server AI belum dikonfigurasi. Hubungi admin."))]).
Proof.
  intros r.
  destruct (run_post_cases provider e req_body)
    as [[Hc R] | [[Hc (er & P & R)] | [(d & V & N & R)
       | [(d & t & V & N & O & T & R) | [(d & t & V & N & O & T & R)
       | (d & err & V & N & O & R)]]]]];
    unfold r; rewrite R; cbn [response].
  - do 4 right. split; reflexivity.
  - right. left. split; [reflexivity|].
    unfold res_json. cbn [body].
    change (toJSON (JObject [(js "error", JString (js "BAD_REQUEST"));
                             (js "details", ?d)]))
      with (JObject ((js "error", JString (js "BAD_REQUEST")) ::
                     match toJSON d with
                     | JUndefined => []
                     | y => [(js "details", y)]
                     end)).
    rewrite toJSON_to_value.
    destruct (format errorMap er) as [es cs]. rewrite to_value_node.
    repeat split. discriminate.
  - left. split; [reflexivity|]. exists greeting.
    split; [discriminate|]. split; [vm_compute|]; reflexivity.
  - right. right. left. split; reflexivity.
  - left. split; [reflexivity|]. exists (trim (str_or t (js ""))).
    split; [now apply nonblank_true|]. split; [apply trim_idem | reflexivity].
  - do 3 right. left.
    unfold res_json, or. cbn [status body]. split; [reflexivity|].
    set (c := if truthy (get err (js "code")) then _ else _).
    set (m := if truthy (get err (js "message")) then _ else _).
    assert (Hm : toJSON m <> JUndefined).
    { intros H. apply toJSON_undefined in H. subst m.
      destruct (truthy (get err (js "message"))) eqn:T; [|discriminate].
      now apply truthy_defined in T. }
    simpl toJSON.
    destruct (toJSON c) eqn:Ec; destruct (toJSON m) eqn:Em;
      try congruence; split; try reflexivity; discriminate.
Qed.

(** X8. The handler writes to the server log in one case only: when the
    exchange with the provider throws; then it writes one record, with the
    message (or the thrown value itself), the code, the status and the name
    of the exception. *)
Theorem log_only_on_exception provider (e : Env) (req_body : value) :
  let r := run provider (post e req_body) in
  (logged r = []
   /\ forall req err, In req (calls r) -> provider req <> Throws err)
  \/ (exists req err,
        calls r = [req] /\ provider req = Throws err
        /\ logged r =
           [[JString (js "[ArkWork Agent] Gemini error:");
             JObject [(js "message", or (get err (js "message")) err);
                      (js "code", get err (js "code"));
                      (js "status", get err (js "status"));
                      (js "name", get err (js "name"))]]]).
Proof.
  intros r.
  destruct (run_post_cases provider e req_body)
    as [[Hc R] | [[Hc (er & P & R)] | [(d & V & N & R)
       | [(d & t & V & N & O & T & R) | [(d & t & V & N & O & T & R)
       | (d & err & V & N & O & R)]]]]];
    fold r in R; rewrite R; cbn [calls logged];
    try (left; split; [reflexivity|]; intros req err' [<- | []]; congruence);
    try (left; split; [reflexivity|]; intros req err' []).
  right. exists (sent e d), err. auto.
Qed.

(** X9. The generation parameters handed to the provider are always within
    the bounds of the schema: the caller's when given, 512 and 0.3
    otherwise. *)
Theorem generation_parameters_bounded provider (e : Env) (req_body : value)
  (req : ProviderRequest) :
  In req (calls (run provider (post e req_body))) ->
  isInteger (fst (generationConfig req)) = true
  /\ in_range 64 2048 (fst (generationConfig req)) = true
  /\ in_range 0 1 (snd (generationConfig req)) = true
  /\ exists data,
       validated e req_body data
       /\ (maxOutputTokens data = None ->
           fst (generationConfig req) = of_Z 512)
       /\ (temperature data = None ->
           snd (generationConfig req) = Finite (3 # 10))
       /\ (forall n, maxOutputTokens data = Some n ->
                     fst (generationConfig req) = n)
       /\ (forall t, temperature data = Some t ->
                     snd (generationConfig req) = t).
Proof.
  intros Hin.
  destruct (called_with _ _ _ _ Hin) as (data & V & N & ->).
  destruct (success_well_formed _ _ (proj2 V)) as (_ & _ & _ & Hmo & Ht).
  unfold request_for. cbn [generationConfig fst snd].
  split; [|split; [|split]].
  - destruct (maxOutputTokens data) as [n|]; [|reflexivity].
    now apply Hmo.
  - destruct (maxOutputTokens data) as [n|]; [|reflexivity].
    now apply Hmo.
  - destruct (temperature data) as [t|]; [|reflexivity].
    now apply Ht.
  - exists data. split; [exact V|].
    repeat split; intros; subst; cbn [opt_or];
      try match goal with H : _ = None |- _ => rewrite H end;
      try match goal with H : _ = Some _ |- _ => rewrite H end;
      reflexivity.
Qed.

(** X7. The answer is 400 exactly when a credential is configured and the
    body fails validation, for whatever reason; then the provider is not
    called. *)
Theorem bad_request_iff provider (e : Env) (req_body : value) :
  let r := run provider (post e req_body) in
  (status (response r) = 400 <->
   has_credential e = true
   /\ exists error,
        safeParse AskSchema (coalesce req_body (JObject [])) = Failure error)
  /\ (status (response r) = 400 -> calls r = []).
Proof.
  intros r.
  destruct (run_post_cases provider e req_body)
    as [[Hc R] | [[Hc (er & P & R)] | [(d & V & N & R)
       | [(d & t & V & N & O & T & R) | [(d & t & V & N & O & T & R)
       | (d & err & V & N & O & R)]]]]];
    fold r in R; rewrite R; cbn [response calls res_json status];
    (split; [split|]); try discriminate; try reflexivity;
    try (intros [Hc' (er' & P')]; try destruct V as [_ P'']; congruence);
    eauto.
Qed.

Lemma toGeminiHistory_length (msgs : list MsgIn) :
  List.length (toGeminiHistory msgs 6) <= 6.
Proof.
  rewrite toGeminiHistory_eq, length_map.
  etransitivity; [apply filter_length_le|]. rewrite length_skipn. lia.
Qed.

Lemma clampText_nonempty (s : jsstring) :
  s <> [] -> clampText s 4000 <> [].
Proof.
  destruct s as [|c s]; [contradiction|]. intros _. unfold clampText.
  destruct (Z.of_nat (List.length (c :: s)) >? 4000)%Z; [|discriminate].
  change 4000%Z with (Z.of_nat 4000). rewrite slice_prefix. discriminate.
Qed.

Lemma clampText_length (s : jsstring) :
  List.length (clampText s 4000) <= 4000.
Proof.
  unfold clampText. destruct s as [|c s]; [simpl; lia|].
  destruct (Z.gtb_spec (Z.of_nat (List.length (c :: s))) 4000).
  - change 4000%Z with (Z.of_nat 4000). rewrite slice_prefix, length_firstn. lia.
  - lia.
Qed.

Lemma nonblank_nonempty (s : jsstring) : nonblank s = true -> s <> [].
Proof. intros H ->. discriminate. Qed.

(** X10. What is sent to the provider is bounded: the configured key (never
    empty), the two opening turns followed by at most six turns of prior
    messages, and a new message of 1 to 4000 code units. *)
Theorem request_bounded provider (e : Env) (req_body : value)
  (req : ProviderRequest) :
  In req (calls (run provider (post e req_body))) ->
  apiKey req = GEMINI_API_KEY e /\ apiKey req <> []
  /\ 2 <= List.length (history req) <= 8
  /\ nth_error (history req) 1 = Some (turn (js "model") (js "Siap."))
  /\ 1 <= List.length (Chat.message req) <= 4000.
Proof.
  intros Hin.
  destruct (called_with _ _ _ _ Hin) as (data & [Hc P] & N & ->).
  unfold request_for.
  cbn [apiKey history Chat.message List.length app nth_error].
  pose proof (toGeminiHistory_length
                (slice (messages data) 0 (Some (-1)%Z))) as L.
  pose proof (clampText_length (last_content (messages data))) as M.
  pose proof (clampText_nonempty _ (nonblank_nonempty _ N)) as M'.
  repeat split; auto; try lia.
  - now apply has_credential_key.
  - destruct (clampText (last_content (messages data)) 4000);
      [contradiction | simpl; lia].
Qed.

(** X11. In a short conversation nothing is cut: with at most six messages
    before the final one, every one of them that is not whitespace-only is
    forwarded, in order, after the two opening turns. *)
Theorem short_history_forwarded_whole provider (e : Env) (req_body : value)
  (data : Ask) (req : ProviderRequest) :
  safeParse AskSchema (coalesce req_body (JObject [])) = Success data ->
  List.length (messages data) - 1 <= 6 ->
  In req (calls (run provider (post e req_body))) ->
  skipn 2 (history req) =
  map forwarded_turn
      (filter (fun m => nonblank (content m)) (removelast (messages data))).
Proof.
  intros P L Hin.
  destruct (called_with _ _ _ _ Hin) as (data' & [Hc P'] & N & ->).
  rewrite P in P'. injection P' as <-.
  unfold request_for. cbn [history skipn app].
  rewrite toGeminiHistory_eq, slice_init, length_firstn.
  replace (Nat.min (List.length (messages data) - 1)
                   (List.length (messages data)) - 6) with 0 by lia.
  cbn [skipn]. rewrite removelast_firstn_len.
  now replace (Nat.pred (List.length (messages data)))
    with (List.length (messages data) - 1) by lia.
Qed.

(** X12. The health check tells the truth: it answers 200 with [ok], the
    model and [hasKey]; [hasKey] is [false] exactly when the chat handler
    answers every request with 503; and the model it reports, which is
    the configured one or gemini-1.5-flash and never empty, is the model
    every call of the provider names. *)
Theorem health_reports (e : Env) :
  health e =
  Done (mkResponse 200
          (JObject [(js "ok", JBool true);
                    (js "model", JString (GEMINI_MODEL e));
                    (js "hasKey", JBool (has_credential e))]))
  /\ (has_credential e = false <->
      forall provider req_body,
        status (response (run provider (post e req_body))) = 503)
  /\ GEMINI_MODEL e <> []
  /\ (forall provider req_body req,
        In req (calls (run provider (post e req_body))) ->
        model req = GEMINI_MODEL e).
Proof.
  split; [|split; [|split]].
  - unfold health, res_json, has_credential, GEMINI_API_KEY, str_or.
    destruct (env_GEMINI_API_KEY e) as [[|c s]|]; reflexivity.
  - split.
    + intros H provider req_body.
      apply no_credential_key in H. unfold Chat.post. rewrite H. reflexivity.
    + intros H. destruct (has_credential e) eqn:Hc; [|reflexivity].
      specialize (H (fun _ => Resolves None) JNull).
      rewrite (post_configured _ _ _ _ Hc) in H. discriminate.
  - unfold GEMINI_MODEL, str_or.
    destruct (env_GEMINI_MODEL e) as [[|c s]|]; discriminate.
  - intros provider req_body req Hin.
    destruct (called_with _ _ _ _ Hin) as (data & _ & _ & ->). reflexivity.
Qed.

End Runs.

(** ** The helpers on their own *)

(** X13. For any bound that is not negative, [clampText] is the prefix of
    that length: the result is never longer than the bound, and clamping
    twice is clamping once. *)
Theorem clampText_prefix (s : jsstring) (max : Z) :
  (0 <= max)%Z ->
  clampText s max = firstn (Z.to_nat max) s
  /\ (Z.of_nat (List.length (clampText s max)) <= max)%Z
  /\ clampText (clampText s max) max = clampText s max.
Proof.
  intros Hmax.
  assert (E : forall t, clampText t max = firstn (Z.to_nat max) t).
  { intros t. unfold clampText. destruct t as [|c t]; [now rewrite firstn_nil|].
    destruct (Z.gtb_spec (Z.of_nat (List.length (c :: t))) max).
    - rewrite <- (Z2Nat.id max) at 1 by exact Hmax. apply slice_prefix.
    - symmetry. apply firstn_all2. lia. }
  rewrite !E. split; [reflexivity|]. split.
  - rewrite length_firstn. lia.
  - rewrite firstn_firstn. f_equal. lia.
Qed.

Lemma firstn_incl {A : Type} (n : nat) (xs : list A) (x : A) :
  In x (firstn n xs) -> In x xs.
Proof.
  revert xs. induction n as [|n IH]; intros [|y xs]; simpl; try tauto.
  intros [-> | H]; auto.
Qed.

Lemma skipn_incl {A : Type} (n : nat) (xs : list A) (x : A) :
  In x (skipn n xs) -> In x xs.
Proof.
  revert xs. induction n as [|n IH]; intros [|y xs]; simpl; auto.
Qed.

Lemma slice_incl {A : Type} (xs : list A) (start : Z) (end_ : option Z) (x : A) :
  In x (slice xs start end_) -> In x xs.
Proof.
  unfold slice. intros H. apply firstn_incl in H. now apply skipn_incl in H.
Qed.

(** X14. Whatever the messages and the number to keep, every turn of the
    history window comes from one of the messages, one that is not
    whitespace-only; its role is ["model"] or ["user"] and nothing else,
    and its text is the clamped content. *)
Theorem window_turns (msgs : list MsgIn) (keep : Z) (v : value) :
  In v (toGeminiHistory msgs keep) ->
  exists m,
    In m msgs /\ nonblank (content m) = true
    /\ v = turn (if str_eqb (role m) (js "assistant")
                 then js "model" else js "user")
                (clampText (content m) 4000)
    /\ (get v (js "role") = JString (js "model")
        \/ get v (js "role") = JString (js "user"))
    /\ (get v (js "role") = JString (js "model") <->
        role m = js "assistant").
Proof.
  unfold toGeminiHistory. intros H.
  apply in_map_iff in H as (m & <- & H).
  apply filter_In in H as [H N]. apply slice_incl in H.
  exists m. repeat split; auto.
  - destruct (str_eqb (role m) (js "assistant")); auto.
  - destruct (str_eqb (role m) (js "assistant")) eqn:E.
    + intros _. now apply str_eqb_spec.
    + discriminate.
  - intros R. rewrite R. reflexivity.
Qed.

(** X15. The window holds at most [keep] turns when [keep] is positive;
    with [keep = 0] nothing is cut ([slice(-0)] is the whole list) and
    every message that is not whitespace-only is forwarded. *)
Theorem window_size (msgs : list MsgIn) (keep : nat) :
  (0 < keep -> List.length (toGeminiHistory msgs (Z.of_nat keep)) <= keep)
  /\ toGeminiHistory msgs 0 =
     map forwarded_turn (filter (fun m => nonblank (content m)) msgs).
Proof.
  split.
  - intros Hk. unfold toGeminiHistory. rewrite slice_last by exact Hk.
    rewrite length_map. etransitivity; [apply filter_length_le|].
    rewrite length_skipn. lia.
  - unfold toGeminiHistory, slice, rel_index. cbn [Z.opp Z.ltb Z.compare].
    replace (Z.min 0 (Z.of_nat (List.length msgs))) with 0%Z by lia.
    rewrite Z.sub_0_r, Nat2Z.id. cbn [Z.to_nat skipn].
    now rewrite firstn_all.
Qed.

Lemma base_head_shape : base_head = 10%N :: rules ++ [10%N].
Proof. vm_compute. reflexivity. Qed.

Lemma rules_shape :
  exists c0 r0 init cl,
    rules = c0 :: r0 /\ is_whitespace c0 = false
    /\ rules = init ++ [cl] /\ is_whitespace cl = false.
Proof.
  exists (hd 0%N rules), (tl rules), (removelast rules), (last rules 0%N).
  vm_compute. auto.
Qed.

Lemma trim_framed (k rest : jsstring) (c0 : char16) (r0 init : jsstring)
  (cl : char16) :
  k = c0 :: r0 -> is_whitespace c0 = false ->
  k = init ++ [cl] -> is_whitespace cl = false ->
  trim (10%N :: k ++ rest) = k ++ trimEnd rest.
Proof.
  intros E0 H0 El Hl. unfold trim. cbn [trimStart].
  change (is_whitespace 10%N) with true. cbv iota.
  assert (S : trimStart (k ++ rest) = k ++ rest)
    by (rewrite E0; simpl; now rewrite H0).
  rewrite S, El, <- !app_assoc. cbn [app].
  now apply trimEnd_app_nonws.
Qed.

Section Prompt.
Variable JSON_stringify : Profile -> jsstring.

(** X16. Whatever the profile holds, the system prompt opens with the
    persona and the rules, then has the profile text, the instruction
    block of the intent and the closing instruction, in this order. *)
Theorem system_prompt_frame (intent : jsstring) (profile : option Profile) :
  In intent [js "news"; js "jobs"; js "consult"] ->
  buildSystemPrompt JSON_stringify intent profile =
  rules
  ++ trimEnd (10%N :: profile_text JSON_stringify profile ++ base_tail)
  ++ [10%N; 10%N] ++ mode_block intent ++ [10%N; 10%N] ++ closing.
Proof.
  intros Hi. unfold buildSystemPrompt. cbv zeta.
  fold (profile_text JSON_stringify profile). fold closing.
  assert (B : trim (base_head ++ profile_text JSON_stringify profile ++ base_tail)
              = rules ++ trimEnd (10%N :: profile_text JSON_stringify profile
                                        ++ base_tail)).
  { rewrite base_head_shape.
    destruct rules_shape as (c0 & r0 & init & cl & E0 & H0 & El & Hl).
    cbn [app]. rewrite <- app_assoc. cbn [app].
    now apply (trim_framed rules _ c0 r0 init cl). }
  etransitivity; [exact (f_equal (fun x => x ++ _) B)|].
  cbv beta. rewrite <- app_assoc. do 3 f_equal.
  destruct Hi as [<- | [<- | [<- | []]]]; reflexivity.
Qed.

End Prompt.

(** ** What of a request the handler reads *)

Section Reading.
Variable errorMap : ZodIssue -> jsstring.
Variable JSON_stringify : Profile -> jsstring.

Local Abbreviation post := (Chat.post errorMap JSON_stringify).
Local Abbreviation handle := (handle_outcome errorMap JSON_stringify).

Lemma AskSchema_agree (p1 p2 : list (jsstring * value)) :
  (forall k, In k schema_keys -> lookup k p1 = lookup k p2) ->
  AskSchema [] (JObject p1) = AskSchema [] (JObject p2).
Proof.
  intros H. unfold AskSchema, z_object, field, get.
  rewrite (H (js "messages")), (H (js "intent")), (H (js "profile")),
    (H (js "maxOutputTokens")), (H (js "temperature"));
    unfold schema_keys; simpl; auto 10.
Qed.

Lemma post_of_schema (e : Env) (p1 p2 : list (jsstring * value)) :
  AskSchema [] (JObject p1) = AskSchema [] (JObject p2) ->
  post e (JObject p1) = post e (JObject p2).
Proof.
  intros H. unfold Chat.post, coalesce, safeParse. now rewrite H.
Qed.

Lemma lookup_other (k k' : jsstring) (v : value) props :
  k <> k' -> lookup k ((k', v) :: props) = lookup k props.
Proof.
  intros Hk. simpl. destruct (str_eqb k k') eqn:E; [|reflexivity].
  apply str_eqb_spec in E. contradiction.
Qed.

(** X3. The handler reads five properties of the request object and
    nothing else: two objects that agree on [messages], [intent],
    [profile], [maxOutputTokens] and [temperature] are handled alike, so a
    property of any other name is ignored, not rejected. *)
Theorem unknown_properties_ignored (e : Env) (p1 p2 : list (jsstring * value)) :
  ((forall k, In k schema_keys -> lookup k p1 = lookup k p2) ->
   post e (JObject p1) = post e (JObject p2))
  /\ (forall k v, ~ In k schema_keys ->
                  post e (JObject ((k, v) :: p1)) = post e (JObject p1)).
Proof.
  split.
  - intros H. now apply post_of_schema, AskSchema_agree.
  - intros k v Hk. apply post_of_schema, AskSchema_agree.
    intros k' Hk'. apply lookup_other. intros ->. contradiction.
Qed.

Lemma AskSchema_assemble props :
  AskSchema [] (JObject props) =
  assemble
    (z_array MsgSchema (Some 1) [Key (js "messages")]
       (lookup (js "messages") props))
    (z_default (z_enum intents) (JString (js "news"))
       [Key (js "intent")] (lookup (js "intent") props))
    (z_optional ProfileSchema [Key (js "profile")]
       (lookup (js "profile") props))
    (z_optional (z_number [check_int; check_min 64; check_max 2048])
       [Key (js "maxOutputTokens")] (lookup (js "maxOutputTokens") props))
    (z_optional (z_number [check_min 0; check_max 1])
       [Key (js "temperature")] (lookup (js "temperature") props)).
Proof. reflexivity. Qed.

Lemma post_handle (e : Env) props :
  post e (JObject props) = handle e (AskSchema [] (JObject props)).
Proof. reflexivity. Qed.

Lemma handle_maxOutputTokens (e : Env) r1 r2 r3 r5 :
  handle e (assemble r1 r2 r3 (Some None, []) r5) =
  handle e (assemble r1 r2 r3 (Some (Some (of_Z 512)), []) r5).
Proof.
  unfold handle_outcome, assemble, ap, OK.
  destruct (GEMINI_API_KEY e); [reflexivity|].
  destruct r1 as [[a1|] l1], r2 as [[a2|] l2], r3 as [[a3|] l3],
           r5 as [[a5|] l5]; cbn [fst snd app]; rewrite ?app_nil_r;
    try reflexivity;
    destruct (l1 ++ l2 ++ l3 ++ l5) eqn:E;
    rewrite ?app_assoc in *; rewrite ?E; try reflexivity.
Qed.

Lemma handle_temperature (e : Env) r1 r2 r3 r4 :
  handle e (assemble r1 r2 r3 r4 (Some None, [])) =
  handle e (assemble r1 r2 r3 r4 (Some (Some (Finite (3 # 10))), [])).
Proof.
  unfold handle_outcome, assemble, ap, OK.
  destruct (GEMINI_API_KEY e); [reflexivity|].
  destruct r1 as [[a1|] l1], r2 as [[a2|] l2], r3 as [[a3|] l3],
           r4 as [[a4|] l4]; cbn [fst snd app]; rewrite ?app_nil_r;
    try reflexivity;
    destruct (l1 ++ l2 ++ l3 ++ l4) eqn:E;
    rewrite ?app_assoc in *; rewrite ?E; try reflexivity.
Qed.

Lemma lookup_here (k : jsstring) (v : value) props :
  lookup k ((k, v) :: props) = v.
Proof. simpl. now rewrite str_eqb_refl. Qed.

(** X4. Leaving a property out is the same request as giving its default:
    no [intent] is the intent ["news"], no [maxOutputTokens] is 512, no
    [temperature] is 0.3, and a message without [role] is a message of
    the user. *)
Theorem omitted_is_default (e : Env) (props : list (jsstring * value)) :
  (lookup (js "intent") props = JUndefined ->
   post e (JObject props) =
   post e (JObject ((js "intent", JString (js "news")) :: props)))
  /\ (lookup (js "maxOutputTokens") props = JUndefined ->
      post e (JObject props) =
      post e (JObject ((js "maxOutputTokens", JNumber (of_Z 512)) :: props)))
  /\ (lookup (js "temperature") props = JUndefined ->
      post e (JObject props) =
      post e (JObject ((js "temperature", JNumber (Finite (3 # 10))) :: props)))
  /\ (forall p,
        lookup (js "role") props = JUndefined ->
        MsgSchema p (JObject props) =
        MsgSchema p (JObject ((js "role", JString (js "user")) :: props))).
Proof.
  split; [|split; [|split]]; intros H.
  - apply post_of_schema. rewrite !AskSchema_assemble.
    rewrite lookup_here, !lookup_other by discriminate. now rewrite H.
  - rewrite !post_handle, !AskSchema_assemble.
    rewrite lookup_here, !lookup_other by discriminate. rewrite H.
    apply handle_maxOutputTokens.
  - rewrite !post_handle, !AskSchema_assemble.
    rewrite lookup_here, !lookup_other by discriminate. rewrite H.
    apply handle_temperature.
  - intros Hr. unfold MsgSchema, z_object, field, get.
    rewrite lookup_here, lookup_other by discriminate. now rewrite Hr.
Qed.

End Reading.

(** ** Validation accepts what is well formed *)

Lemma MsgSchema_encode p (m : MsgIn) :
  content m <> [] -> MsgSchema p (encode_msg m) = (Some m, []).
Proof.
  destruct m as [r [|c s]]; [contradiction|]. reflexivity.
Qed.

Lemma parse_items_encode p i (msgs : list MsgIn) :
  Forall (fun m => content m <> []) msgs ->
  parse_items MsgSchema p i (map encode_msg msgs) = (Some msgs, []).
Proof.
  intros H. revert i.
  induction H as [|m msgs Hm _ IH]; intros i; cbn [map parse_items].
  - reflexivity.
  - now rewrite (MsgSchema_encode _ m Hm), IH.
Qed.

Lemma number_accepts lo hi p (n : number) :
  in_range lo hi n = true ->
  z_optional (z_number [check_min lo; check_max hi]) p (JNumber n)
  = (Some (Some n), [])
  /\ (isInteger n = true ->
      z_optional (z_number [check_int; check_min lo; check_max hi]) p (JNumber n)
      = (Some (Some n), [])).
Proof.
  destruct n as [q| | |]; try discriminate. simpl.
  intros H. apply andb_true_iff in H as [A B].
  unfold Qltb. rewrite A, B. simpl. split; [reflexivity|].
  now intros ->.
Qed.

Lemma ProfileSchema_encode p (prof : Profile) :
  experienceYears prof <> Some NaN ->
  ProfileSchema p (encode_profile prof) = (Some prof, []).
Proof.
  destruct prof as [n r s l [[q| | |]|] i]; simpl; intros H;
    try (exfalso; apply H; reflexivity);
    destruct n, r, s, l, i; reflexivity.
Qed.

(** X2. Validation accepts every well-formed request and returns it
    unchanged: the request object written for well-formed data parses
    into that data. *)
Theorem well_formed_request_accepted (data : Ask) :
  well_formed data -> safeParse AskSchema (encode data) = Success data.
Proof.
  intros (M1 & M2 & I & Hmo & Ht & Hp).
  destruct data as [msgs it pr mo t]. simpl in *.
  unfold safeParse, encode. cbn [messages intent profile maxOutputTokens
                                  temperature].
  rewrite AskSchema_assemble.
  assert (R1 : z_array MsgSchema (Some 1) [Key (js "messages")]
                 (JArray (map encode_msg msgs)) = (Some msgs, [])).
  { unfold z_array. rewrite parse_items_encode by exact M2.
    destruct msgs; [contradiction | reflexivity]. }
  assert (R2 : z_default (z_enum intents) (JString (js "news"))
                 [Key (js "intent")] (JString it) = (Some it, [])).
  { destruct I as [<- | [<- | [<- | []]]]; reflexivity. }
  assert (R3 : z_optional ProfileSchema [Key (js "profile")]
                 match pr with
                 | Some p => encode_profile p
                 | None => JUndefined
                 end = (Some pr, [])).
  { destruct pr as [p|]; [|reflexivity].
    unfold z_optional. rewrite ProfileSchema_encode by (now apply Hp).
    reflexivity. }
  assert (R4 : z_optional (z_number [check_int; check_min 64; check_max 2048])
                 [Key (js "maxOutputTokens")]
                 match mo with
                 | Some n => JNumber n
                 | None => JUndefined
                 end = (Some mo, [])).
  { destruct mo as [n|]; [|reflexivity].
    destruct (Hmo n eq_refl) as [In_ R].
    exact (proj2 (number_accepts 64 2048 _ n R) In_). }
  assert (R5 : z_optional (z_number [check_min 0; check_max 1])
                 [Key (js "temperature")]
                 match t with
                 | Some n => JNumber n
                 | None => JUndefined
                 end = (Some t, [])).
  { destruct t as [n|]; [|reflexivity].
    exact (proj1 (number_accepts 0 1 _ n (Ht n eq_refl))). }
  replace (lookup (js "messages") _) with (JArray (map encode_msg msgs))
    by reflexivity.
  replace (lookup (js "intent") _) with (JString it) by reflexivity.
  replace (lookup (js "profile") _)
    with (match pr with Some p => encode_profile p | None => JUndefined end)
    by (destruct pr, mo, t; reflexivity).
  replace (lookup (js "maxOutputTokens") _)
    with (match mo with Some n => JNumber n | None => JUndefined end)
    by (destruct pr, mo, t; reflexivity).
  replace (lookup (js "temperature") _)
    with (match t with Some n => JNumber n | None => JUndefined end)
    by (destruct pr, mo, t; reflexivity).
  rewrite R1, R2, R3, R4, R5. reflexivity.
Qed.

(** ** The origins the application admits *)

Import Server.

Lemma split_no_separator (sep : char16) (s piece : jsstring) :
  In piece (split sep s) -> ~ In sep piece.
Proof.
  revert piece. induction s as [|c s IH]; intros piece; simpl.
  - intros [<- | []]. auto.
  - destruct (N.eqb_spec c sep) as [-> | Hc].
    + intros [<- | H]; auto.
    + destruct (split sep s) as [|p ps] eqn:E.
      * intros [<- | []]. simpl. intros [-> | []]. contradiction.
      * intros [<- | H].
        -- simpl. intros [-> | H']; [contradiction|].
           apply (IH p); simpl; auto.
        -- apply IH. simpl. auto.
Qed.

Lemma origins_clean (env : option jsstring) (o : jsstring) :
  In o (origins env) -> o <> [] /\ trim o = o /\ ~ In comma o.
Proof.
  unfold origins. intros H. apply filter_In in H as [H T].
  apply in_map_iff in H as (piece & <- & H).
  split; [|split].
  - intros E. rewrite E in T. discriminate.
  - apply trim_idem.
  - intros C. apply trim_incl in C.
    now apply (split_no_separator comma _ piece H).
Qed.



(** X18. The origin check lets a request pass when it names no origin or
    names one of the allowed origins, and only then; an origin with white
    space around it or a comma in it never passes. A refusal is answered
    by the error handler with 403 and a fixed body; any other error with
    500 and a fixed body, and the error itself goes to the server log
    only. *)
Theorem origin_check_decides (env : option jsstring) (origin : option jsstring) :
  (origin_check env origin = Allowed <->
   origin = None \/ origin = Some []
   \/ exists o, origin = Some o /\ In o (origins env))
  /\ (forall o, origin = Some o -> o <> [] ->
                In comma o \/ trim o <> o ->
                origin_check env origin <> Allowed)
  /\ (forall err,
        origin_check env origin = Refused err ->
        errorHandler err =
        ([err],
         mkResponse 403
           (JObject [(js "error", JString (js "CORS: Origin not allowed"))])))
  /\ (forall err,
        err <> ErrorObject (js "Not allowed by CORS") ->
        errorHandler err =
        ([err],
         mkResponse 500
           (JObject [(js "error", JString (js "Internal server error"))]))).
Proof.
  assert (A : origin_check env origin = Allowed <->
              origin = None \/ origin = Some []
              \/ exists o, origin = Some o /\ In o (origins env)).
  { unfold origin_check. destruct origin as [[|c o]|]; try tauto.
    destruct (existsb (str_eqb (c :: o)) (origins env)) eqn:E.
    - apply existsb_exists in E as (x & Hx & Ex). apply str_eqb_spec in Ex.
      subst x. split; eauto.
    - split; [discriminate|].
      intros [H | [H | (x & [= <-] & Hx)]]; try discriminate.
      assert (existsb (str_eqb (c :: o)) (origins env) = true)
        by (apply existsb_exists; exists (c :: o); split;
            [exact Hx | apply str_eqb_refl]).
      congruence. }
  split; [exact A|]. split; [|split].
  - intros o -> Ho Hbad Hal. apply A in Hal.
    destruct Hal as [H | [H | (x & [= <-] & Hx)]]; try discriminate.
    + injection H as ->. contradiction.
    + apply origins_clean in Hx as (_ & T & C). tauto.
  - intros err. unfold origin_check. destruct origin as [[|c o]|];
      try discriminate.
    destruct (existsb _ _); [discriminate|]. intros [= <-]. reflexivity.
  - intros err Herr. unfold errorHandler.
    destruct err as [m|v]; [|reflexivity].
    destruct (str_eqb m (js "Not allowed by CORS")) eqn:E; [|reflexivity].
    apply str_eqb_spec in E. subst m. contradiction.
Qed.

(** ** Concrete runs of the further properties *)

Lemma validated_data_well_formed_witness : well_formed hello_data.
Proof.
  apply (validated_data_well_formed hello_request hello_data). reflexivity.
Defined.

Lemma well_formed_request_accepted_witness :
  safeParse AskSchema (encode hello_data) = Success hello_data.
Proof.
  apply (well_formed_request_accepted hello_data).
  apply (success_well_formed hello_request). reflexivity.
Defined.

Lemma generation_parameters_bounded_witness :
  in_range 64 2048
    (fst (generationConfig
            (request_for stub_stringify env_with_key hello_data))) = true.
Proof.
  apply (generation_parameters_bounded stub_errorMap stub_stringify
           (replying "hi") env_with_key hello_request).
  apply hello_called.
Defined.

Lemma request_bounded_witness :
  2 <= List.length
         (history (request_for stub_stringify env_with_key hello_data)) <= 8.
Proof.
  apply (request_bounded stub_errorMap stub_stringify
           (replying "hi") env_with_key hello_request).
  apply hello_called.
Defined.

Lemma short_history_forwarded_whole_witness :
  skipn 2 (history (request_for stub_stringify env_with_key
                      (dialogue_data short_talk))) =
  [turn (js "user") (js "q1")].
Proof.
  rewrite (short_history_forwarded_whole stub_errorMap stub_stringify
             (replying "hi") env_with_key (dialogue_request short_talk)
             (dialogue_data short_talk)).
  - reflexivity.
  - reflexivity.
  - simpl. lia.
  - left. reflexivity.
Defined.

Lemma clampText_prefix_witness : clampText (js "hello") 3 = js "hel".
Proof.
  apply (clampText_prefix (js "hello") 3). lia.
Defined.

Lemma window_turns_witness :
  exists m,
    In m [msg "user" "a"; msg "assistant" "b"]
    /\ turn (js "model") (js "b") = forwarded_turn m.
Proof.
  destruct (window_turns [msg "user" "a"; msg "assistant" "b"] 6
              (turn (js "model") (js "b")))
    as (m & Hin & _ & E & _).
  - right. left. reflexivity.
  - exists m. split; [exact Hin | exact E].
Defined.

Lemma system_prompt_frame_witness :
  exists middle,
    buildSystemPrompt stub_stringify (js "jobs") None =
    rules ++ middle ++ [10%N; 10%N] ++ closing.
Proof.
  exists (trimEnd (10%N :: profile_text stub_stringify None ++ base_tail)
          ++ [10%N; 10%N] ++ mode_block (js "jobs")).
  rewrite (system_prompt_frame stub_stringify (js "jobs") None).
  - now rewrite <- !app_assoc.
  - right. left. reflexivity.
Defined.
